(** * Gesture recognition pipeline of the adaptive reader

    A shallow embedding of [gesture_controller.py] and of the two constants of
    [config.py] it reads.  Coordinates and clock readings are Python floats,
    that is IEEE binary64 numbers, and are modelled by Rocq's primitive
    floats; gesture labels are Python strings (or [None]); the counting
    dictionary of the stabiliser keeps Python's insertion order and is an
    association list. *)

From Stdlib Require Import List String Bool Arith ZArith Lia.
From Stdlib Require Import Floats.
From Stdlib Require Uint63.
From Stdlib Require Import Ascii DecimalString.
Import ListNotations.

Set Warnings "-inexact-float".

Open Scope string_scope.
Open Scope nat_scope.
Open Scope list_scope.

(** ** Landmarks *)

(** One tracked point of the hand, as MediaPipe reports it. *)
Record Landmark := mkLandmark { x : float; y : float; z : float }.

(** [hand_landmarks.landmark]: the sequence of points of one hand. *)
Definition Landmarks := list Landmark.

Module Idx.
Definition WRIST := 0.
Definition THUMB_CMC := 1.
Definition THUMB_MCP := 2.
Definition THUMB_IP := 3.
Definition THUMB_TIP := 4.
Definition INDEX_MCP := 5.
Definition INDEX_PIP := 6.
Definition INDEX_DIP := 7.
Definition INDEX_TIP := 8.
Definition MIDDLE_MCP := 9.
Definition MIDDLE_PIP := 10.
Definition MIDDLE_DIP := 11.
Definition MIDDLE_TIP := 12.
Definition RING_MCP := 13.
Definition RING_PIP := 14.
Definition RING_DIP := 15.
Definition RING_TIP := 16.
Definition PINKY_MCP := 17.
Definition PINKY_PIP := 18.
Definition PINKY_DIP := 19.
Definition PINKY_TIP := 20.
End Idx.
Import Idx.

(** [landmarks[i]].  Python raises [IndexError] past the end of the sequence;
    the tracker always delivers 21 points and the code reads indices 0 to 20
    only, so the statements below are made for [well_formed] sets, where the
    default is never reached. *)
Definition item (landmarks : Landmarks) (i : nat) : Landmark :=
  nth i landmarks (mkLandmark 0 0 0).

Definition well_formed (landmarks : Landmarks) : Prop :=
  List.length landmarks = 21.

(** ** Landmark geometry *)

(** The dictionary returned by [_get_finger_state]: [true] is extended. *)
Record FingerState :=
  mkFingerState { index : bool; middle : bool; ring : bool; pinky : bool }.

Definition _get_finger_state (landmarks : Landmarks) : FingerState :=
  let index_extended := (y (item landmarks INDEX_TIP) <? y (item landmarks INDEX_PIP))%float in
  let middle_extended := (y (item landmarks MIDDLE_TIP) <? y (item landmarks MIDDLE_PIP))%float in
  let ring_extended := (y (item landmarks RING_TIP) <? y (item landmarks RING_PIP))%float in
  let pinky_extended := (y (item landmarks PINKY_TIP) <? y (item landmarks PINKY_PIP))%float in
  mkFingerState index_extended middle_extended ring_extended pinky_extended.

(** The four strings ['up'], ['down'], ['side'], ['curled']. *)
Inductive ThumbDirection := up | down | side | curled.

Definition ThumbDirection_eqb (a b : ThumbDirection) : bool :=
  match a, b with
  | up, up | down, down | side, side | curled, curled => true
  | _, _ => false
  end.

Definition UP_THRESHOLD : float := 0.15%float.
Definition DOWN_THRESHOLD : float := (-0.10)%float.

(** [wrist.y - thumb_tip.y] *)
Definition thumb_vertical_diff (landmarks : Landmarks) : float :=
  (y (item landmarks WRIST) - y (item landmarks THUMB_TIP))%float.

(** [abs(thumb_tip.x - wrist.x)] *)
Definition thumb_horizontal_diff (landmarks : Landmarks) : float :=
  abs (x (item landmarks THUMB_TIP) - x (item landmarks WRIST))%float.

(** [_get_thumb_direction].  The method also stores the two differences in
    [debug_thumb_v] and [debug_thumb_h], which only the drawn overlay reads. *)
Definition _get_thumb_direction (landmarks : Landmarks) : ThumbDirection :=
  let vertical_diff := thumb_vertical_diff landmarks in
  let horizontal_diff := thumb_horizontal_diff landmarks in
  if (UP_THRESHOLD <? vertical_diff)%float then up
  else if (vertical_diff <? DOWN_THRESHOLD)%float then down
  else if (0.12 <? horizontal_diff)%float then side
  else curled.

(** ** Gesture classifier *)

Definition all_curled (fingers : FingerState) : bool :=
  negb (index fingers) && negb (middle fingers)
  && negb (ring fingers) && negb (pinky fingers).

Definition _is_thumb_up (landmarks : Landmarks) (fingers : FingerState) : bool :=
  let thumb_dir := _get_thumb_direction landmarks in
  if negb (ThumbDirection_eqb thumb_dir up) then false
  else all_curled fingers.

Definition _is_thumb_down (landmarks : Landmarks) (fingers : FingerState) : bool :=
  let thumb_dir := _get_thumb_direction landmarks in
  if negb (ThumbDirection_eqb thumb_dir down) then false
  else all_curled fingers.

Definition _is_open_palm (landmarks : Landmarks) (fingers : FingerState) : bool :=
  let thumb_dir := _get_thumb_direction landmarks in
  let thumb_out := ThumbDirection_eqb thumb_dir up || ThumbDirection_eqb thumb_dir side in
  let all_extended := index fingers && middle fingers && ring fingers && pinky fingers in
  all_extended && thumb_out.

Definition _is_fist (landmarks : Landmarks) (fingers : FingerState) : bool :=
  if negb (all_curled fingers) then false
  else
    let thumb_tip := item landmarks THUMB_TIP in
    let index_mcp := item landmarks INDEX_MCP in
    let wrist := item landmarks WRIST in
    let palm_center_x := ((x index_mcp + x wrist) / 2)%float in
    let palm_center_y := ((y index_mcp + y wrist) / 2)%float in
    let thumb_to_palm_x := abs (x thumb_tip - palm_center_x)%float in
    let thumb_to_palm_y := abs (y thumb_tip - palm_center_y)%float in
    let thumb_tucked := (thumb_to_palm_x <? 0.15)%float && (thumb_to_palm_y <? 0.15)%float in
    let vertical_diff := abs (y wrist - y thumb_tip)%float in
    let thumb_not_pointing := (vertical_diff <? 0.12)%float in
    all_curled fingers && (thumb_tucked || thumb_not_pointing).

Definition _is_peace_sign (landmarks : Landmarks) (fingers : FingerState) : bool :=
  index fingers && middle fingers && negb (ring fingers) && negb (pinky fingers).

Definition _is_pointing_up (landmarks : Landmarks) (fingers : FingerState) : bool :=
  index fingers && negb (middle fingers) && negb (ring fingers) && negb (pinky fingers).

(** [detect_gesture]: the raw label of one frame, [None] when nothing matches. *)
Definition detect_gesture (landmarks : Landmarks) : option string :=
  let fingers := _get_finger_state landmarks in
  if _is_thumb_up landmarks fingers then Some "thumbs_up"
  else if _is_thumb_down landmarks fingers then Some "thumbs_down"
  else if _is_pointing_up landmarks fingers then Some "point_up"
  else if _is_peace_sign landmarks fingers then Some "peace"
  else if _is_open_palm landmarks fingers then Some "open_palm"
  else if _is_fist landmarks fingers then Some "fist"
  else None.

(** A hand described by the few coordinates the classifier reads: the wrist,
    the thumb tip, the index knuckle, and for each finger the heights of its
    PIP joint and of its tip.  Every other point is at the origin. *)
Definition hand (wrist thumb_tip index_mcp : float * float)
    (index_pt middle_pt ring_pt pinky_pt : float * float) : Landmarks :=
  let o := mkLandmark 0 0 0 in
  let at_ (p : float * float) := mkLandmark (fst p) (snd p) 0 in
  let pip (p : float * float) := mkLandmark 0 (fst p) 0 in
  let tip (p : float * float) := mkLandmark 0 (snd p) 0 in
  [ at_ wrist; o; o; o; at_ thumb_tip;
    at_ index_mcp; pip index_pt; o; tip index_pt;
    o; pip middle_pt; o; tip middle_pt;
    o; pip ring_pt; o; tip ring_pt;
    o; pip pinky_pt; o; tip pinky_pt ].

(** ** Configuration ([config.py]) *)

Definition GESTURE_COOLDOWN : float := 1.0%float.

(** The dictionary literal [GESTURE_ACTIONS], in source order. *)
Definition GESTURE_ACTIONS : list (string * string) :=
  [ ("thumbs_up", "increase_font");
    ("thumbs_down", "decrease_font");
    ("open_palm", "toggle_tts");
    ("fist", "stop_tts");
    ("point_up", "next_page");
    ("peace", "previous_page");
    ("swipe_left", "next_page");
    ("swipe_right", "previous_page") ].

(** [d.get(k)] on a dictionary kept as an association list. *)
Fixpoint dict_get {V : Type} (d : list (string * V)) (k : string) : option V :=
  match d with
  | [] => None
  | (k', v) :: rest => if (k' =? k)%string then Some v else dict_get rest k
  end.

(** Python truthiness of a string: only the empty string is falsy. *)
Definition str_truthy (s : string) : bool :=
  match s with EmptyString => false | String _ _ => true end.

(** Truthiness of a label: [None] and the empty string are falsy. *)
Definition truthy (g : option string) : bool :=
  match g with None => false | Some s => str_truthy s end.

(** [a == b] on labels. *)
Definition label_eqb (a b : option string) : bool :=
  match a, b with
  | None, None => true
  | Some s, Some t => (s =? t)%string
  | _, _ => false
  end.

(** ** Controller state *)

(** The fields of [GestureController] the pipeline reads or writes.  The
    callback is an opaque effect: [on_gesture_callback] tells whether one was
    given and [calls] lists its invocations so far, oldest first. *)
Record GestureController := mkController {
  on_gesture_callback : bool;
  last_gesture_time : float;
  cooldown : float;
  gesture_history : list (option string);
  last_triggered_gesture : option string;
  calls : list (string * string)
}.

(** [__init__] *)
Definition init (callback : bool) : GestureController :=
  {| on_gesture_callback := callback;
     last_gesture_time := 0;
     cooldown := GESTURE_COOLDOWN;
     gesture_history := [];
     last_triggered_gesture := None;
     calls := [] |}.

Definition set_history (self : GestureController) (h : list (option string)) :=
  {| on_gesture_callback := on_gesture_callback self;
     last_gesture_time := last_gesture_time self;
     cooldown := cooldown self;
     gesture_history := h;
     last_triggered_gesture := last_triggered_gesture self;
     calls := calls self |}.

Definition set_last_triggered (self : GestureController) (g : option string) :=
  {| on_gesture_callback := on_gesture_callback self;
     last_gesture_time := last_gesture_time self;
     cooldown := cooldown self;
     gesture_history := gesture_history self;
     last_triggered_gesture := g;
     calls := calls self |}.

Definition set_last_time (self : GestureController) (t : float) :=
  {| on_gesture_callback := on_gesture_callback self;
     last_gesture_time := t;
     cooldown := cooldown self;
     gesture_history := gesture_history self;
     last_triggered_gesture := last_triggered_gesture self;
     calls := calls self |}.

(** [self.on_gesture_callback(gesture, action)] *)
Definition invoke (self : GestureController) (gesture action : string) :=
  {| on_gesture_callback := on_gesture_callback self;
     last_gesture_time := last_gesture_time self;
     cooldown := cooldown self;
     gesture_history := gesture_history self;
     last_triggered_gesture := last_triggered_gesture self;
     calls := calls self ++ [(gesture, action)] |}.

(** ** Temporal stabiliser *)

Definition HISTORY_MAXLEN : nat := 10.

(** [deque.append] with [maxlen]: the item goes to the right end and, when the
    deque then exceeds [maxlen], the leftmost item is dropped. *)
Definition deque_append {A : Type} (maxlen : nat) (d : list A) (v : A) : list A :=
  let d' := d ++ [v] in
  if maxlen <? List.length d' then tl d' else d'.

(** [gesture_counts[g] = gesture_counts.get(g, 0) + 1]: an existing key keeps
    its place, a new key goes last. *)
Fixpoint incr (gesture_counts : list (string * nat)) (g : string) : list (string * nat) :=
  match gesture_counts with
  | [] => [(g, 1)]
  | (k, n) :: rest =>
      if (k =? g)%string then (k, n + 1) :: rest else (k, n) :: incr rest g
  end.

(** One turn of the counting loop: [if g: gesture_counts[g] = ...]. *)
Definition count_step (gesture_counts : list (string * nat)) (g : option string)
    : list (string * nat) :=
  match g with
  | Some s => if truthy g then incr gesture_counts s else gesture_counts
  | None => gesture_counts
  end.

(** The counting loop over the history. *)
Definition count_gestures (history : list (option string)) : list (string * nat) :=
  fold_left count_step history [].

(** [max(d, key=d.get)] scans the keys in order and replaces the running
    maximum only on a strictly greater value. *)
Fixpoint max_from (best : string * nat) (rest : list (string * nat)) : string * nat :=
  match rest with
  | [] => best
  | e :: rest' => if snd best <? snd e then max_from e rest' else max_from best rest'
  end.

(** The pair [(most_common, count)], when the dictionary is not empty. *)
Definition most_common (history : list (option string)) : option (string * nat) :=
  match count_gestures history with
  | [] => None
  | e :: rest => Some (max_from e rest)
  end.

(** A Python [int] as a float (exact for the sizes met here). *)
Definition float_of_nat (n : nat) : float :=
  of_uint63 (Uint63.of_Z (Z.of_nat n)).

(** [count >= len(self.gesture_history) * 0.6] *)
Definition reaches_threshold (count len : nat) : bool :=
  (float_of_nat len * 0.6 <=? float_of_nat count)%float.

(** The part of [_get_stable_gesture] after the append. *)
Definition stable_of (history : list (option string)) : option string :=
  if List.length history <? 5 then None
  else
    match most_common history with
    | None => None
    | Some (most_common, count) =>
        if reaches_threshold count (List.length history) then Some most_common
        else None
    end.

Definition _get_stable_gesture (self : GestureController) (current_gesture : option string)
    : GestureController * option string :=
  let self := set_history self
                (deque_append HISTORY_MAXLEN (gesture_history self) current_gesture) in
  (self, stable_of (gesture_history self)).

(** ** Dispatch gate *)

(** [_trigger_gesture]; [current_time] is what [time.time()] returns there. *)
Definition _trigger_gesture (self : GestureController) (gesture : string)
    (current_time : float) : GestureController :=
  if (current_time - last_gesture_time self <? cooldown self)%float then self
  else if label_eqb (Some gesture) (last_triggered_gesture self) then self
  else
    let self := set_last_triggered self (Some gesture) in
    let self := set_last_time self current_time in
    match dict_get GESTURE_ACTIONS gesture with
    | Some action =>
        if str_truthy action && on_gesture_callback self
        then invoke self gesture action
        else self
    | None => self
    end.

(** ** Frame loop *)

(** What one poll of the camera and of the tracker yields: no frame at all
    (camera closed, not running, or a failed read), or the hands found in the
    frame, each with the clock reading its dispatch would see. *)
Inductive Capture :=
  | NoFrame
  | Tracked (multi_hand_landmarks : list (Landmarks * float)).

(** The body of the loop over [results.multi_hand_landmarks]. *)
Definition process_hand (acc : GestureController * option string)
    (h : Landmarks * float) : GestureController * option string :=
  let self := fst acc in
  let detected_gesture := detect_gesture (fst h) in
  let (self, stable_gesture) := _get_stable_gesture self detected_gesture in
  if truthy stable_gesture then
    match stable_gesture with
    | Some g => (_trigger_gesture self g (snd h), stable_gesture)
    | None => (self, stable_gesture)
    end
  else (self, stable_gesture).

(** [process_frame], without the drawing: the new state and the stable
    gesture it returns. *)
Definition process_frame (self : GestureController) (c : Capture)
    : GestureController * option string :=
  match c with
  | NoFrame => (self, None)
  | Tracked [] =>
      let self := set_history self [] in
      let self := set_last_triggered self None in
      (self, None)
  | Tracked hands => fold_left process_hand hands (self, None)
  end.

(** The polling loop: the state after the captures and the stable gesture of
    each, in order. *)
Fixpoint run (self : GestureController) (cs : list Capture)
    : GestureController * list (option string) :=
  match cs with
  | [] => (self, [])
  | c :: cs' =>
      let (self, stable) := process_frame self c in
      let (self', rest) := run self cs' in
      (self', stable :: rest)
  end.

(** The tracker is created with [max_num_hands=1]: a frame with a hand holds
    exactly one. *)
Definition hand_frame (h : Landmarks * float) : Capture := Tracked [h].

Definition no_hand : Capture := Tracked [].

(** ** Sample hands *)

(** Wrist at height 0.8, thumb tip 0.25 above it, four fingers curled. *)
Definition thumbs_up_hand : Landmarks :=
  (hand (0.5, 0.8) (0.5, 0.55) (0.5, 0.6) (0.5, 0.6) (0.5, 0.6) (0.5, 0.6) (0.5, 0.6))%float.

(** Wrist at height 0.3, thumb tip 0.25 below it, four fingers curled. *)
Definition thumbs_down_hand : Landmarks :=
  (hand (0.5, 0.3) (0.5, 0.55) (0.5, 0.2) (0.5, 0.6) (0.5, 0.6) (0.5, 0.6) (0.5, 0.6))%float.

(** Thumb tip next to the palm, four fingers curled. *)
Definition fist_hand : Landmarks :=
  (hand (0.5, 0.8) (0.5, 0.75) (0.5, 0.6) (0.5, 0.6) (0.5, 0.6) (0.5, 0.6) (0.5, 0.6))%float.

(** Four fingers curled, thumb tip 0.4 to the side of the palm and 0.13 above
    the wrist: neither pointing nor tucked. *)
Definition loose_thumb_hand : Landmarks :=
  (hand (0.5, 0.8) (0.9, 0.67) (0.5, 0.6) (0.5, 0.6) (0.5, 0.6) (0.5, 0.6) (0.5, 0.6))%float.

(** Index, middle and ring extended, pinky curled: no gesture of the vocabulary. *)
Definition three_fingers_hand : Landmarks :=
  (hand (0.5, 0.8) (0.5, 0.75) (0.5, 0.6) (0.6, 0.4) (0.6, 0.4) (0.6, 0.4) (0.5, 0.6))%float.

(** * Vocabulary of the statements *)

(** ** Classifier *)

(** The curled predicate of the specification: [tip.y >= pip.y]. *)
Definition curled_finger (landmarks : Landmarks) (tip pip : nat) : Prop :=
  (y (item landmarks pip) <=? y (item landmarks tip))%float = true.

Definition four_fingers_curled (landmarks : Landmarks) : Prop :=
  curled_finger landmarks INDEX_TIP INDEX_PIP
  /\ curled_finger landmarks MIDDLE_TIP MIDDLE_PIP
  /\ curled_finger landmarks RING_TIP RING_PIP
  /\ curled_finger landmarks PINKY_TIP PINKY_PIP.

(** The two ways of the specification for a thumb to count as tucked. *)
Definition thumb_near_palm_center (landmarks : Landmarks) : bool :=
  let thumb_tip := item landmarks THUMB_TIP in
  let index_mcp := item landmarks INDEX_MCP in
  let wrist := item landmarks WRIST in
  (abs (x thumb_tip - (x index_mcp + x wrist) / 2) <? 0.15)%float
  && (abs (y thumb_tip - (y index_mcp + y wrist) / 2) <? 0.15)%float.

Definition thumb_level_with_wrist (landmarks : Landmarks) : bool :=
  (abs (y (item landmarks WRIST) - y (item landmarks THUMB_TIP)) <? 0.12)%float.

(** ** Gate and stabiliser *)

(** The cooldown test of [_trigger_gesture]: the time since the last
    dispatch, as the gate computes it, is below the cooldown. *)
Definition within_cooldown (self : GestureController) (current_time : float) : bool :=
  (current_time - last_gesture_time self <? cooldown self)%float.

(** Number of entries of the buffer equal to a label ([None] included). *)
Fixpoint occurrences (g : option string) (history : list (option string)) : nat :=
  match history with
  | [] => 0
  | a :: rest => (if label_eqb a g then 1 else 0) + occurrences g rest
  end.

(** Position of the first entry equal to a label (the length when absent). *)
Fixpoint first_index (g : option string) (history : list (option string)) : nat :=
  match history with
  | [] => 0
  | a :: rest => if label_eqb a g then 0 else S (first_index g rest)
  end.

(** Every key stands before the keys first seen later in the buffer. *)
Definition keys_by_first_seen (h : list (option string)) (keys : list string) : Prop :=
  forall pre k post, keys = pre ++ k :: post ->
  forall k', In k' post -> first_index (Some k) h < first_index (Some k') h.

(** The fields the dispatch gate owns or reads. *)
Definition gate_state (self : GestureController)
    : bool * float * float * option string * list (string * string) :=
  (on_gesture_callback self, last_gesture_time self, cooldown self,
   last_triggered_gesture self, calls self).

(** Every clock reading of the capture is within the cooldown of the last
    dispatch recorded in [self]. *)
Definition clocks_within_cooldown (self : GestureController) (c : Capture) : Prop :=
  match c with
  | NoFrame => True
  | Tracked hands => Forall (fun h => within_cooldown self (snd h) = true) hands
  end.

Definition well_formed_hands (hands : list (Landmarks * float)) : Prop :=
  Forall (fun h => well_formed (fst h)) hands.

(** ** Sample buffers, hands and runs *)

(** A controller whose buffer holds the given raw labels, oldest first. *)
Definition with_history (h : list (option string)) : GestureController :=
  set_history (init true) h.

(** Ten samples, "peace" on every other one; the next "peace" pushes the
    oldest none out and makes six of ten. *)
Definition peace_5_of_10 : list (option string) :=
  [ None; Some "peace"; None; Some "peace"; None;
    Some "peace"; None; Some "peace"; None; Some "peace" ].

(** Nine samples alternating "peace" and "fist", "peace" first. *)
Definition peace_fist_9 : list (option string) :=
  [ Some "peace"; Some "fist"; Some "peace"; Some "fist"; Some "peace";
    Some "fist"; Some "peace"; Some "fist"; Some "peace" ].

(** Index and middle extended, ring and pinky curled. *)
Definition peace_hand : Landmarks :=
  (hand (0.5, 0.8) (0.5, 0.75) (0.5, 0.6) (0.6, 0.4) (0.6, 0.4) (0.5, 0.6) (0.5, 0.6))%float.

(** The same hand seen at each of the given clock readings. *)
Definition seen_at (landmarks : Landmarks) (clock : list float) : list (Landmarks * float) :=
  map (fun t => (landmarks, t)) clock.

(** A fresh controller after five frames of thumbs-up: the fifth stabilises
    the label and dispatches it, at 10.4. *)
Definition after_thumbs_up : GestureController :=
  fst (run (init true)
         (map hand_frame (seen_at thumbs_up_hand [10.0; 10.1; 10.2; 10.3; 10.4]%float))).

(** The controller three frames later: the hand is still there but shows
    three fingers; thumbs-up still dominates the buffer. *)
Definition after_thumbs_up_held : GestureController :=
  fst (run after_thumbs_up
         (map hand_frame (seen_at three_fingers_hand [15; 16; 17]%float))).

(** Eight more frames with the hand present, three of three fingers and five
    of thumbs-up again: none of them has a stable label. *)
Definition unstable_frames : list (Landmarks * float) :=
  seen_at three_fingers_hand [18; 19; 20]%float
  ++ seen_at thumbs_up_hand [21; 22; 23; 24; 25]%float.

(** ** Vocabulary of the pipeline *)

(** The labels [detect_gesture] can answer. *)
Definition VOCABULARY : list string :=
  [ "thumbs_up"; "thumbs_down"; "point_up"; "peace"; "open_palm"; "fist" ].

(** No two neighbours of the list are equal. *)
Fixpoint adjacent_distinct (l : list string) : Prop :=
  match l with
  | [] => True
  | a :: rest =>
      match rest with
      | [] => True
      | b :: _ => a <> b /\ adjacent_distinct rest
      end
  end.

(** The last label of a list, if any. *)
Definition last_label (l : list string) : option string :=
  match rev l with
  | [] => None
  | a :: _ => Some a
  end.

(** Number of hands the tracker reported over the captures. *)
Fixpoint hands_seen (cs : list Capture) : nat :=
  match cs with
  | [] => 0
  | NoFrame :: cs' => hands_seen cs'
  | Tracked hands :: cs' => List.length hands + hands_seen cs'
  end.

(** [_get_stable_gesture] called on each raw label in turn: the final state
    and the answers, in order. *)
Fixpoint feed (self : GestureController) (raws : list (option string))
    : GestureController * list (option string) :=
  match raws with
  | [] => (self, [])
  | g :: raws' =>
      let (self, stable) := _get_stable_gesture self g in
      let (self', rest) := feed self raws' in
      (self', stable :: rest)
  end.

(** Every label in the buffer belongs to the vocabulary. *)
Definition history_in_vocabulary (self : GestureController) : Prop :=
  forall g, In (Some g) (gesture_history self) -> In g VOCABULARY.

(** Every hand of the capture has its 21 landmarks. *)
Definition well_formed_capture (c : Capture) : Prop :=
  match c with
  | NoFrame => True
  | Tracked hands => well_formed_hands hands
  end.

(** What the no-hand branch of [process_frame] leaves behind. *)
Definition hand_lost (self : GestureController) : GestureController :=
  set_last_triggered (set_history self []) None.

(** All four fingers extended, thumb tip 0.3 to the side of the wrist. *)
Definition open_hand_thumb_out : Landmarks :=
  (hand (0.5, 0.8) (0.8, 0.75) (0.5, 0.6) (0.6, 0.4) (0.6, 0.4) (0.6, 0.4) (0.6, 0.4))%float.

(** All four fingers extended, thumb tip folded next to the wrist. *)
Definition open_hand_thumb_in : Landmarks :=
  (hand (0.5, 0.8) (0.55, 0.75) (0.5, 0.6) (0.6, 0.4) (0.6, 0.4) (0.6, 0.4) (0.6, 0.4))%float.

(** Since [self] the gate has done nothing, or it has made [g] the
    last-dispatched label and invoked the callback for it at most once. *)
Definition fired_at_most_once (self : GestureController) (g : string)
    (s : GestureController) : Prop :=
  gate_state s = gate_state self
  \/ (last_triggered_gesture s = Some g
      /\ (calls s = calls self
          \/ exists action, dict_get GESTURE_ACTIONS g = Some action
                            /\ calls s = calls self ++ [(g, action)])).

(** * The reader: text, speech engine and actions ([tts_engine.py], [gui.py]) *)

(** ** Python text *)

(** A Python [str] of running text: its code points.  (Labels and state
    names stay Rocq strings.) *)
Definition str := list N.

(** A literal. *)
Definition literal (s : string) : str :=
  map N_of_ascii (list_ascii_of_string s).

(** The line feed, ['\n']. *)
Definition LF : N := 10%N.

(** The paragraph separator, ['\n\n']. *)
Definition PARAGRAPH_SEP : str := [LF; LF].

(** [l[i]] on a list: indices from [-len] to [len - 1] are valid, a negative
    one counting from the end; any other raises [IndexError] ([None]). *)
Definition list_item {A : Type} (l : list A) (i : Z) : option A :=
  let len := Z.of_nat (List.length l) in
  if (0 <=? i)%Z then nth_error l (Z.to_nat i)
  else if (- len <=? i)%Z then nth_error l (Z.to_nat (len + i))
  else None.

(** [text.split('\n\n')]: the pieces between the occurrences of the
    separator, found from the left and not overlapping. *)
Fixpoint split_paragraphs (s : str) : list str :=
  match s with
  | [] => [[]]
  | c :: s' =>
      match s' with
      | d :: s'' =>
          if (c =? LF)%N && (d =? LF)%N then [] :: split_paragraphs s''
          else
            match split_paragraphs s' with
            | p :: ps => (c :: p) :: ps
            | [] => [[c]]
            end
      | [] => [[c]]
      end
  end.

Section Whitespace.

(** [str.isspace] on one character, which [strip] consults: a builtin of
    Python, taken as a parameter. *)
Variable isspace : N -> bool.

Fixpoint lstrip (s : str) : str :=
  match s with
  | [] => []
  | c :: s' => if isspace c then lstrip s' else s
  end.

Definition rstrip (s : str) : str := rev (lstrip (rev s)).

(** [s.strip()] *)
Definition strip (s : str) : str := rstrip (lstrip s).

End Whitespace.

(** Truthiness of a text: the empty one is falsy. *)
Definition nonempty {A : Type} (l : list A) : bool :=
  match l with [] => false | _ :: _ => true end.

(** ** Constants of [config.py] *)

Definition DEFAULT_FONT_SIZE : Z := 18.
Definition MIN_FONT_SIZE : Z := 12.
Definition MAX_FONT_SIZE : Z := 48.
Definition FONT_SIZE_STEP : Z := 2.

Definition DEFAULT_LINE_SPACING : float := 1.5%float.
Definition MIN_LINE_SPACING : float := 1.0%float.
Definition MAX_LINE_SPACING : float := 3.0%float.
Definition LINE_SPACING_STEP : float := 0.25%float.

Definition TTS_DEFAULT_RATE : Z := 150.
Definition TTS_MIN_RATE : Z := 80.
Definition TTS_MAX_RATE : Z := 250.

(** ** Speech engine *)

(** The flags and settings of [TTSEngine].  The playback thread, which reads
    the flags and clears [is_speaking] when the audio ends, is not part of
    the model: the methods below are the ones the main thread calls. *)
Record TTSEngine := mkTTS {
  is_speaking : bool;
  is_paused : bool;
  should_stop : bool;
  current_rate : Z;
  current_voice : string
}.

(** [self.available_voices], set once in [__init__]. *)
Definition available_voices : list (string * string) :=
  [ ("en-US-AriaNeural", "Aria (US Female)");
    ("en-US-GuyNeural", "Guy (US Male)");
    ("en-US-JennyNeural", "Jenny (US Female)");
    ("en-GB-SoniaNeural", "Sonia (UK Female)");
    ("en-GB-RyanNeural", "Ryan (UK Male)");
    ("en-AU-NatashaNeural", "Natasha (AU Female)") ].

(** [TTSEngine.__init__] *)
Definition tts_init : TTSEngine :=
  {| is_speaking := false; is_paused := false; should_stop := false;
     current_rate := TTS_DEFAULT_RATE; current_voice := "en-US-AriaNeural" |}.

(** [enumerate] *)
Fixpoint enumerate_from {A : Type} (i : Z) (l : list A) : list (Z * A) :=
  match l with
  | [] => []
  | a :: l' => (i, a) :: enumerate_from (i + 1)%Z l'
  end.

Definition get_available_voices (self : TTSEngine) : list (Z * string) :=
  map (fun e => (fst e, snd (snd e))) (enumerate_from 0 available_voices).

Definition set_voice (self : TTSEngine) (voice_index : Z) : TTSEngine :=
  if (0 <=? voice_index)%Z && (voice_index <? Z.of_nat (List.length available_voices))%Z then
    match list_item available_voices voice_index with
    | Some v =>
        {| is_speaking := is_speaking self; is_paused := is_paused self;
           should_stop := should_stop self; current_rate := current_rate self;
           current_voice := fst v |}
    | None => self
    end
  else self.

Definition get_rate (self : TTSEngine) : Z := current_rate self.

Definition set_rate (self : TTSEngine) (rate : Z) : TTSEngine :=
  let rate := Z.max TTS_MIN_RATE (Z.min TTS_MAX_RATE rate) in
  {| is_speaking := is_speaking self; is_paused := is_paused self;
     should_stop := should_stop self; current_rate := rate;
     current_voice := current_voice self |}.

(** A Python [int] as a float (exact below 2^53). *)
Definition float_of_Z (z : Z) : float :=
  if (z <? 0)%Z then (- of_uint63 (Uint63.of_Z (- z)))%float
  else of_uint63 (Uint63.of_Z z).

(** [int(f)] on a finite float: truncation toward zero. *)
Definition int_of_float (f : float) : Z :=
  match Prim2SF f with
  | S754_finite s m e =>
      let v := if (0 <=? e)%Z then (Z.pos m * 2 ^ e)%Z else (Z.pos m / 2 ^ (- e))%Z in
      if s then (- v)%Z else v
  | _ => 0%Z
  end.

(** [str(n)] for an [int], as an f-string prints it. *)
Definition decimal (n : Z) : string := NilZero.string_of_int (Z.to_int n).

(** The number [_rate_to_percent] prints: the clamped percentage, truncated. *)
Definition rate_percent (self : TTSEngine) : float :=
  let percent := (float_of_Z (current_rate self - 150) / float_of_Z 150 * 100)%float in
  (* min(100, percent) *)
  let percent := if (percent <? 100)%float then percent else 100%float in
  (* max(-50, percent) *)
  if (-50 <? percent)%float then percent else (-50)%float.

Definition _rate_to_percent (self : TTSEngine) : string :=
  let percent := rate_percent self in
  if (0 <=? percent)%float then "+" ++ decimal (int_of_float percent) ++ "%"
  else decimal (int_of_float percent) ++ "%".

(** [pause], [resume], [toggle_pause]: the new state and the returned flag. *)
Definition pause (self : TTSEngine) : TTSEngine * bool :=
  if is_speaking self && negb (is_paused self) then
    ({| is_speaking := is_speaking self; is_paused := true;
        should_stop := should_stop self; current_rate := current_rate self;
        current_voice := current_voice self |}, true)
  else (self, false).

Definition resume (self : TTSEngine) : TTSEngine * bool :=
  if is_speaking self && is_paused self then
    ({| is_speaking := is_speaking self; is_paused := false;
        should_stop := should_stop self; current_rate := current_rate self;
        current_voice := current_voice self |}, true)
  else (self, false).

Definition toggle_pause (self : TTSEngine) : TTSEngine * bool :=
  if is_paused self then resume self else pause self.

(** [stop]: the flags (stopping the mixer and joining the thread aside). *)
Definition stop (self : TTSEngine) : TTSEngine :=
  {| is_speaking := false; is_paused := false; should_stop := true;
     current_rate := current_rate self; current_voice := current_voice self |}.

Definition get_state (self : TTSEngine) : string :=
  if negb (is_speaking self) then "stopped"
  else if is_paused self then "paused"
  else "playing".

(** [speak]: the flags it leaves when it returns; the playback thread it
    starts for a text that is not blank is not modelled. *)
Definition speak (isspace : N -> bool) (self : TTSEngine) (text : str)
    (start_from_index : Z) : TTSEngine :=
  let self := stop self in
  let text :=
    if (0 <? start_from_index)%Z then skipn (Z.to_nat start_from_index) text else text in
  if negb (nonempty (strip isspace text)) then self
  else
    {| is_speaking := true; is_paused := false; should_stop := false;
       current_rate := current_rate self; current_voice := current_voice self |}.

(** ** Reader window *)

(** The fields of [AdaptiveReaderGUI] its actions read or write; the widgets
    they redraw are left out. *)
Record AdaptiveReaderGUI := mkReader {
  current_font_size : Z;
  current_line_spacing : float;
  full_text : str;
  current_page : Z;
  pages : list str;
  chars_per_page : Z;
  gestures_enabled : bool;
  tts : TTSEngine
}.

Definition set_font_size (self : AdaptiveReaderGUI) (v : Z) : AdaptiveReaderGUI :=
  mkReader v (current_line_spacing self) (full_text self) (current_page self)
    (pages self) (chars_per_page self) (gestures_enabled self) (tts self).

Definition set_line_spacing (self : AdaptiveReaderGUI) (v : float) : AdaptiveReaderGUI :=
  mkReader (current_font_size self) v (full_text self) (current_page self)
    (pages self) (chars_per_page self) (gestures_enabled self) (tts self).

Definition set_current_page (self : AdaptiveReaderGUI) (v : Z) : AdaptiveReaderGUI :=
  mkReader (current_font_size self) (current_line_spacing self) (full_text self) v
    (pages self) (chars_per_page self) (gestures_enabled self) (tts self).

Definition set_pages (self : AdaptiveReaderGUI) (v : list str) : AdaptiveReaderGUI :=
  mkReader (current_font_size self) (current_line_spacing self) (full_text self)
    (current_page self) v (chars_per_page self) (gestures_enabled self) (tts self).

Definition set_tts (self : AdaptiveReaderGUI) (v : TTSEngine) : AdaptiveReaderGUI :=
  mkReader (current_font_size self) (current_line_spacing self) (full_text self)
    (current_page self) (pages self) (chars_per_page self) (gestures_enabled self) v.

Definition increase_font (self : AdaptiveReaderGUI) : AdaptiveReaderGUI :=
  if (current_font_size self <? MAX_FONT_SIZE)%Z
  then set_font_size self (current_font_size self + FONT_SIZE_STEP)%Z
  else self.

Definition decrease_font (self : AdaptiveReaderGUI) : AdaptiveReaderGUI :=
  if (MIN_FONT_SIZE <? current_font_size self)%Z
  then set_font_size self (current_font_size self - FONT_SIZE_STEP)%Z
  else self.

Definition increase_spacing (self : AdaptiveReaderGUI) : AdaptiveReaderGUI :=
  if (current_line_spacing self <? MAX_LINE_SPACING)%float
  then set_line_spacing self (current_line_spacing self + LINE_SPACING_STEP)%float
  else self.

Definition decrease_spacing (self : AdaptiveReaderGUI) : AdaptiveReaderGUI :=
  if (MIN_LINE_SPACING <? current_line_spacing self)%float
  then set_line_spacing self (current_line_spacing self - LINE_SPACING_STEP)%float
  else self.

(** [_display_current_page]: reading [self.pages[self.current_page]] is what
    can fail; [None] stands for the [IndexError]. *)
Definition _display_current_page (self : AdaptiveReaderGUI) : option AdaptiveReaderGUI :=
  if nonempty (pages self) then
    match list_item (pages self) (current_page self) with
    | Some _ => Some self
    | None => None
    end
  else Some self.

Definition tts_stop (self : AdaptiveReaderGUI) : AdaptiveReaderGUI :=
  set_tts self (stop (tts self)).

Definition next_page (self : AdaptiveReaderGUI) : option AdaptiveReaderGUI :=
  if (current_page self <? Z.of_nat (List.length (pages self)) - 1)%Z then
    let self := tts_stop self in
    let self := set_current_page self (current_page self + 1)%Z in
    _display_current_page self
  else Some self.

Definition previous_page (self : AdaptiveReaderGUI) : option AdaptiveReaderGUI :=
  if (0 <? current_page self)%Z then
    let self := tts_stop self in
    let self := set_current_page self (current_page self - 1)%Z in
    _display_current_page self
  else Some self.

Definition tts_pause (self : AdaptiveReaderGUI) : AdaptiveReaderGUI :=
  let state := get_state (tts self) in
  if (state =? "playing")%string then set_tts self (fst (pause (tts self)))
  else if (state =? "paused")%string then set_tts self (fst (resume (tts self)))
  else self.

Section ReaderActions.

Variable isspace : N -> bool.

Definition tts_play (self : AdaptiveReaderGUI) : option AdaptiveReaderGUI :=
  if nonempty (pages self) then
    match list_item (pages self) (current_page self) with
    | Some text => Some (set_tts self (speak isspace (tts self) text 0))
    | None => None
    end
  else Some self.

Definition tts_toggle (self : AdaptiveReaderGUI) : option AdaptiveReaderGUI :=
  let state := get_state (tts self) in
  if (state =? "stopped")%string then tts_play self
  else if (state =? "playing")%string then Some (tts_pause self)
  else if (state =? "paused")%string then Some (tts_pause self)
  else Some self.

(** The dictionary [actions] of [_execute_gesture_action]. *)
Definition actions : list (string * (AdaptiveReaderGUI -> option AdaptiveReaderGUI)) :=
  [ ("increase_font", fun self => Some (increase_font self));
    ("decrease_font", fun self => Some (decrease_font self));
    ("next_page", next_page);
    ("previous_page", previous_page);
    ("toggle_tts", tts_toggle);
    ("stop_tts", fun self => Some (tts_stop self)) ].

Definition _execute_gesture_action (self : AdaptiveReaderGUI) (gesture action : string)
    : option AdaptiveReaderGUI :=
  if negb (gestures_enabled self) then Some self
  else
    match dict_get actions action with
    | Some method => method self
    | None => Some self
    end.

(** The calls of the gesture callback executed in order; [None] as soon as
    one of them raises. *)
Fixpoint execute_all (self : AdaptiveReaderGUI) (cs : list (string * string))
    : option AdaptiveReaderGUI :=
  match cs with
  | [] => Some self
  | (gesture, action) :: cs' =>
      match _execute_gesture_action self gesture action with
      | Some self' => execute_all self' cs'
      | None => None
      end
  end.

(** One turn of the loop of [_paginate_text] over the paragraphs: the pages
    so far and the page being filled. *)
Definition paginate_step (limit : Z) (acc : list str * str) (para : str) : list str * str :=
  let (pages, current_page) := acc in
  if (Z.of_nat (List.length current_page) + Z.of_nat (List.length para) <? limit)%Z
  then (pages, current_page ++ (para ++ PARAGRAPH_SEP))
  else
    ((if nonempty current_page then pages ++ [strip isspace current_page] else pages),
     para ++ PARAGRAPH_SEP).

Definition _paginate_text (self : AdaptiveReaderGUI) : AdaptiveReaderGUI :=
  let self := set_pages self [] in
  let text := strip isspace (full_text self) in
  if negb (nonempty text) then set_pages self [literal "No content to display."]
  else
    let paragraphs := split_paragraphs text in
    let (pages, current_page) :=
      fold_left (paginate_step (chars_per_page self)) paragraphs ([], []) in
    let pages :=
      if nonempty (strip isspace current_page)
      then pages ++ [strip isspace current_page] else pages in
    let pages := if negb (nonempty pages) then [text] else pages in
    set_current_page (set_pages self pages) 0.

End ReaderActions.

(** ** Statements about the reader *)

(** The line spacings reachable from the default in steps of 0.25. *)
Definition SPACING_GRID : list float :=
  [1.0; 1.25; 1.5; 1.75; 2.0; 2.25; 2.5; 2.75; 3.0]%float.

(** The font size is an even number between the bounds. *)
Definition font_in_range (self : AdaptiveReaderGUI) : Prop :=
  (MIN_FONT_SIZE <= current_font_size self <= MAX_FONT_SIZE)%Z
  /\ Z.even (current_font_size self) = true.

(** The current page exists. *)
Definition page_in_range (self : AdaptiveReaderGUI) : Prop :=
  (0 <= current_page self < Z.of_nat (List.length (pages self)))%Z.

(** The rates the clamp of [set_rate] lets through. *)
Definition rate_in_range (rate : Z) : Prop := (TTS_MIN_RATE <= rate <= TTS_MAX_RATE)%Z.

(** The whitespace of ASCII, for the examples. *)
Definition ascii_isspace (c : N) : bool :=
  ((9 <=? c) && (c <=? 13) || (28 <=? c) && (c <=? 32))%N.

(** A reader as [__init__] leaves it once the given text is loaded and
    paginated. *)
Definition reader_with (isspace : N -> bool) (text : str) : AdaptiveReaderGUI :=
  _paginate_text isspace
    (mkReader DEFAULT_FONT_SIZE DEFAULT_LINE_SPACING text 0 [] 2000 false tts_init).

Definition enable_gestures (self : AdaptiveReaderGUI) : AdaptiveReaderGUI :=
  mkReader (current_font_size self) (current_line_spacing self) (full_text self)
    (current_page self) (pages self) (chars_per_page self) true (tts self).

(** The percentage a rate stands for, truncated toward zero, in exact
    arithmetic. *)
Definition exact_percent (rate : Z) : Z := Z.quot ((rate - 150) * 100) 150.

(** The rates from 80 to 250. *)
Definition RATES : list Z := map (fun n => (80 + Z.of_nat n)%Z) (seq 0 171).

(** An engine at rest with the given rate. *)
Definition tts_with_rate (rate : Z) : TTSEngine := set_rate tts_init rate.

(** What every action of the table keeps. *)
Definition reader_kept (self self' : AdaptiveReaderGUI) : Prop :=
  font_in_range self' /\ page_in_range self'
  /\ pages self' = pages self
  /\ current_line_spacing self' = current_line_spacing self
  /\ gestures_enabled self' = gestures_enabled self.

(** A short document laid out by hand in three pages, shown on the second,
    with gesture control switched on. *)
Definition three_page_reader : AdaptiveReaderGUI :=
  enable_gestures
    (set_current_page
       (set_pages (reader_with ascii_isspace (literal "Hello"))
          [literal "one"; literal "two"; literal "three"]) 1).

(** The paragraphs written one after the other, each followed by the
    separator, as the loop of [_paginate_text] accumulates them. *)
Definition with_separators (paragraphs : list str) : str :=
  List.concat (map (fun para => para ++ PARAGRAPH_SEP) paragraphs).

(** The last [n] items of a list (all of it when it is shorter). *)
Definition lastn {A : Type} (n : nat) (l : list A) : list A :=
  skipn (List.length l - n) l.

(** * Properties *)

(** ** Order of binary64 numbers *)

Section FloatOrder.

Lemma SFcompare_swap (a b : spec_float) :
  SFcompare b a = option_map CompOpp (SFcompare a b).
Proof.
  destruct a as [sa | sa | | sa ma ea], b as [sb | sb | | sb mb eb];
    cbn [SFcompare option_map]; try reflexivity;
    try (destruct sa; reflexivity); try (destruct sb; reflexivity);
    try (destruct sa, sb; reflexivity).
  f_equal.
  destruct sa, sb; cbn [CompOpp]; try reflexivity;
    rewrite (Z.compare_antisym ea eb);
    destruct (ea ?= eb)%Z; cbn [CompOpp]; try reflexivity;
    try apply (f_equal CompOpp);
    symmetry; exact (Pos.compare_cont_antisym ma mb Eq).
Qed.

(** [a >= b] excludes [a < b]. *)
Lemma leb_not_ltb (a b : float) :
  (b <=? a)%float = true -> (a <? b)%float = false.
Proof.
  rewrite leb_spec, ltb_spec. unfold SFleb, SFltb.
  rewrite (SFcompare_swap (Prim2SF b) (Prim2SF a)).
  destruct (SFcompare (Prim2SF b) (Prim2SF a)) as [[| |]|];
    cbn [option_map CompOpp]; congruence.
Qed.

(** A number below the negative threshold is not above the positive one. *)
Lemma below_down_not_above_up (v : float) :
  (v <? DOWN_THRESHOLD)%float = true -> (UP_THRESHOLD <? v)%float = false.
Proof.
  rewrite !ltb_spec. unfold SFltb.
  replace (Prim2SF DOWN_THRESHOLD) with (S754_finite true 7205759403792794 (-56))
    by (vm_compute; reflexivity).
  replace (Prim2SF UP_THRESHOLD) with (S754_finite false 5404319552844595 (-55))
    by (vm_compute; reflexivity).
  destruct (Prim2SF v) as [s | s | | s m e]; cbn [SFcompare];
    try destruct s; try discriminate; reflexivity.
Qed.

End FloatOrder.

(** ** Classifier *)

Section Classifier.

Variable landmarks : Landmarks.

Lemma four_fingers_curled_state :
  four_fingers_curled landmarks -> all_curled (_get_finger_state landmarks) = true.
Proof.
  unfold four_fingers_curled, curled_finger, all_curled, _get_finger_state.
  intros (Hi & Hm & Hr & Hp). cbn [index middle ring pinky].
  rewrite (leb_not_ltb _ _ Hi), (leb_not_ltb _ _ Hm),
    (leb_not_ltb _ _ Hr), (leb_not_ltb _ _ Hp).
  reflexivity.
Qed.

Lemma all_curled_fields (fingers : FingerState) :
  all_curled fingers = true ->
  index fingers = false /\ middle fingers = false
  /\ ring fingers = false /\ pinky fingers = false.
Proof.
  unfold all_curled.
  destruct (index fingers), (middle fingers), (ring fingers), (pinky fingers);
    cbn; intros; try discriminate; repeat split; reflexivity.
Qed.

Lemma thumb_up_direction :
  (UP_THRESHOLD <? thumb_vertical_diff landmarks)%float = true ->
  _get_thumb_direction landmarks = up.
Proof. unfold _get_thumb_direction. intros ->. reflexivity. Qed.

Lemma thumb_down_direction :
  (thumb_vertical_diff landmarks <? DOWN_THRESHOLD)%float = true ->
  _get_thumb_direction landmarks = down.
Proof.
  unfold _get_thumb_direction. intros H.
  rewrite (below_down_not_above_up _ H), H. reflexivity.
Qed.

(** With the four fingers curled only the thumb decides. *)
Lemma detect_gesture_all_curled :
  all_curled (_get_finger_state landmarks) = true ->
  detect_gesture landmarks =
    match _get_thumb_direction landmarks with
    | up => Some "thumbs_up"
    | down => Some "thumbs_down"
    | _ => if _is_fist landmarks (_get_finger_state landmarks)
           then Some "fist" else None
    end.
Proof.
  intros Hc. unfold detect_gesture.
  unfold _is_thumb_up, _is_thumb_down, _is_pointing_up, _is_peace_sign, _is_open_palm.
  rewrite Hc.
  destruct (all_curled_fields _ Hc) as (-> & -> & -> & ->).
  destruct (_get_thumb_direction landmarks); reflexivity.
Qed.

End Classifier.

(** C3. With the four fingers curled ([tip.y >= pip.y]) and
    [vertical_diff = wrist.y - thumb_tip.y] above 0.15 the classifier answers
    thumbs_up, with it below -0.10 it answers thumbs_down, and in neither case
    fist: the two thumb gestures are tested first. *)
Theorem C3_directional_thumb_before_fist (landmarks : Landmarks) :
  well_formed landmarks ->
  four_fingers_curled landmarks ->
  ((0.15 <? thumb_vertical_diff landmarks)%float = true ->
     detect_gesture landmarks = Some "thumbs_up")
  /\ ((thumb_vertical_diff landmarks <? -0.10)%float = true ->
     detect_gesture landmarks = Some "thumbs_down")
  /\ ((0.15 <? thumb_vertical_diff landmarks)%float = true
       \/ (thumb_vertical_diff landmarks <? -0.10)%float = true ->
     detect_gesture landmarks <> Some "fist").
Proof.
  intros _ Hcurled.
  pose proof (four_fingers_curled_state _ Hcurled) as Hc.
  pose proof (detect_gesture_all_curled _ Hc) as Hd.
  assert (Hup : (0.15 <? thumb_vertical_diff landmarks)%float = true ->
                detect_gesture landmarks = Some "thumbs_up").
  { intros H. rewrite Hd, (thumb_up_direction _ H). reflexivity. }
  assert (Hdown : (thumb_vertical_diff landmarks <? -0.10)%float = true ->
                  detect_gesture landmarks = Some "thumbs_down").
  { intros H. rewrite Hd, (thumb_down_direction _ H). reflexivity. }
  repeat split; try assumption.
  intros [H | H]; [rewrite (Hup H) | rewrite (Hdown H)]; discriminate.
Qed.

Lemma C3_witness :
  detect_gesture thumbs_up_hand = Some "thumbs_up"
  /\ detect_gesture thumbs_down_hand = Some "thumbs_down"
  /\ detect_gesture thumbs_up_hand <> Some "fist".
Proof.
  assert (Hu : four_fingers_curled thumbs_up_hand) by (repeat split; vm_compute; reflexivity).
  assert (Hd : four_fingers_curled thumbs_down_hand) by (repeat split; vm_compute; reflexivity).
  destruct (C3_directional_thumb_before_fist thumbs_up_hand eq_refl Hu) as (H1 & _ & H3).
  destruct (C3_directional_thumb_before_fist thumbs_down_hand eq_refl Hd) as (_ & H2 & _).
  split; [apply H1; vm_compute; reflexivity|].
  split; [apply H2; vm_compute; reflexivity|].
  apply H3. left. vm_compute. reflexivity.
Defined.

Lemma _is_fist_all_curled (landmarks : Landmarks) :
  all_curled (_get_finger_state landmarks) = true ->
  _is_fist landmarks (_get_finger_state landmarks)
  = thumb_near_palm_center landmarks || thumb_level_with_wrist landmarks.
Proof.
  intros Hc. unfold _is_fist. rewrite Hc. reflexivity.
Qed.

(** C8. With the four fingers curled and none of thumbs_up, thumbs_down,
    point_up, peace and open_palm recognised, the classifier answers fist
    exactly when the thumb tip is within 0.15 of the palm centre on both axes
    or less than 0.12 above or below the wrist. *)
Theorem C8_fist_iff_thumb_tucked (landmarks : Landmarks) :
  well_formed landmarks ->
  all_curled (_get_finger_state landmarks) = true ->
  detect_gesture landmarks <> Some "thumbs_up" ->
  detect_gesture landmarks <> Some "thumbs_down" ->
  detect_gesture landmarks <> Some "point_up" ->
  detect_gesture landmarks <> Some "peace" ->
  detect_gesture landmarks <> Some "open_palm" ->
  (detect_gesture landmarks = Some "fist"
   <-> thumb_near_palm_center landmarks = true
       \/ thumb_level_with_wrist landmarks = true).
Proof.
  intros _ Hc Hup Hdown _ _ _.
  rewrite (detect_gesture_all_curled _ Hc) in *.
  rewrite (_is_fist_all_curled _ Hc).
  rewrite <- orb_true_iff.
  destruct (_get_thumb_direction landmarks); try congruence;
    destruct (thumb_near_palm_center landmarks || thumb_level_with_wrist landmarks);
    split; intros; congruence.
Qed.

Lemma C8_witness :
  (detect_gesture fist_hand = Some "fist"
   <-> thumb_near_palm_center fist_hand = true
       \/ thumb_level_with_wrist fist_hand = true)
  /\ (detect_gesture loose_thumb_hand = Some "fist"
      <-> thumb_near_palm_center loose_thumb_hand = true
          \/ thumb_level_with_wrist loose_thumb_hand = true).
Proof.
  split.
  - apply (C8_fist_iff_thumb_tucked fist_hand);
      try reflexivity; vm_compute; discriminate.
  - apply (C8_fist_iff_thumb_tucked loose_thumb_hand);
      try reflexivity; vm_compute; discriminate.
Defined.

Example fist_hand_is_fist :
  detect_gesture fist_hand = Some "fist"
  /\ thumb_near_palm_center fist_hand = true.
Proof. split; vm_compute; reflexivity. Qed.

Example loose_thumb_hand_is_none :
  detect_gesture loose_thumb_hand = None
  /\ thumb_near_palm_center loose_thumb_hand = false
  /\ thumb_level_with_wrist loose_thumb_hand = false.
Proof. repeat split; vm_compute; reflexivity. Qed.

Example three_fingers_hand_is_none : detect_gesture three_fingers_hand = None.
Proof. vm_compute. reflexivity. Qed.

(** ** Dispatch gate *)

Lemma label_eqb_eq (a b : option string) : label_eqb a b = true <-> a = b.
Proof.
  destruct a as [s|], b as [t|]; cbn [label_eqb];
    try (split; [discriminate | congruence]); try tauto.
  rewrite String.eqb_eq. split; congruence.
Qed.

Lemma label_eqb_neq (a b : option string) : label_eqb a b = false <-> a <> b.
Proof.
  rewrite <- label_eqb_eq. destruct (label_eqb a b); split; congruence.
Qed.

Lemma actions_are_truthy (gesture action : string) :
  dict_get GESTURE_ACTIONS gesture = Some action -> str_truthy action = true.
Proof.
  unfold GESTURE_ACTIONS. cbn [dict_get].
  repeat match goal with
         | |- context [if ?b then _ else _] =>
             destruct b; [intros [= <-]; reflexivity |]
         end.
  discriminate.
Qed.

(** The gate while cooling down: nothing happens. *)
Lemma _trigger_gesture_cooling (self : GestureController) (gesture : string) (t : float) :
  within_cooldown self t = true -> _trigger_gesture self gesture t = self.
Proof.
  unfold within_cooldown, _trigger_gesture. intros ->. reflexivity.
Qed.

(** The gate on the label it dispatched last: nothing happens. *)
Lemma _trigger_gesture_same (self : GestureController) (gesture : string) (t : float) :
  last_triggered_gesture self = Some gesture -> _trigger_gesture self gesture t = self.
Proof.
  unfold _trigger_gesture. intros ->.
  destruct (_ <? _)%float; [reflexivity|].
  cbn [label_eqb]. rewrite String.eqb_refl. reflexivity.
Qed.

(** The gate on a qualifying label: the bookkeeping and the callback. *)
Lemma _trigger_gesture_dispatch (self : GestureController) (gesture : string) (t : float) :
  within_cooldown self t = false ->
  last_triggered_gesture self <> Some gesture ->
  _trigger_gesture self gesture t =
    let self' := set_last_time (set_last_triggered self (Some gesture)) t in
    match dict_get GESTURE_ACTIONS gesture with
    | Some action =>
        if on_gesture_callback self then invoke self' gesture action else self'
    | None => self'
    end.
Proof.
  unfold within_cooldown, _trigger_gesture. intros -> Hneq.
  assert (label_eqb (Some gesture) (last_triggered_gesture self) = false) as ->
    by (apply label_eqb_neq; congruence).
  cbv zeta.
  destruct (dict_get GESTURE_ACTIONS gesture) as [action|] eqn:Hget; [|reflexivity].
  rewrite (actions_are_truthy _ _ Hget). reflexivity.
Qed.

(** C4. Below the cooldown the gate changes nothing: no callback, same
    last-dispatched label, same timestamp.  Hence of two different gestures
    less than the cooldown apart only the first reaches the callback.  The
    cooldown of a fresh controller is 1.0. *)
Theorem C4_cooldown_blocks_dispatch :
  (forall self gesture t,
      within_cooldown self t = true ->
      let self' := _trigger_gesture self gesture t in
      calls self' = calls self
      /\ last_triggered_gesture self' = last_triggered_gesture self
      /\ last_gesture_time self' = last_gesture_time self)
  /\ (forall self g1 a1 g2 t1 t2,
         on_gesture_callback self = true ->
         within_cooldown self t1 = false ->
         last_triggered_gesture self <> Some g1 ->
         dict_get GESTURE_ACTIONS g1 = Some a1 ->
         g1 <> g2 ->
         (t2 - t1 <? cooldown self)%float = true ->
         let first := _trigger_gesture self g1 t1 in
         let second := _trigger_gesture first g2 t2 in
         calls first = calls self ++ [(g1, a1)]
         /\ calls second = calls self ++ [(g1, a1)]
         /\ last_triggered_gesture second = Some g1
         /\ last_gesture_time second = t1)
  /\ (forall callback, cooldown (init callback) = 1.0%float).
Proof.
  split; [|split].
  - intros self gesture t H. cbv zeta.
    rewrite (_trigger_gesture_cooling _ _ _ H). auto.
  - intros self g1 a1 g2 t1 t2 Hcb Hcool Hneq Hget _ Hclose. cbv zeta.
    rewrite (_trigger_gesture_dispatch _ _ _ Hcool Hneq), Hget, Hcb. cbv zeta.
    rewrite _trigger_gesture_cooling by exact Hclose.
    cbn. auto.
  - reflexivity.
Qed.

Lemma C4_witness :
  let first := _trigger_gesture (init true) "peace" 10 in
  let second := _trigger_gesture first "fist" 10.5 in
  calls first = [("peace", "previous_page")]
  /\ calls second = [("peace", "previous_page")]
  /\ last_triggered_gesture second = Some "peace"
  /\ last_gesture_time second = 10%float.
Proof.
  destruct C4_cooldown_blocks_dispatch as (_ & H & _).
  apply (H (init true) "peace" "previous_page" "fist" 10%float 10.5%float);
    try reflexivity; discriminate.
Defined.

(** C7. A label that passes both tests is recorded with its timestamp whether
    or not it has an action; an unmapped label reaches no callback, a mapped
    one reaches it once, with the pair (gesture, action). *)
Theorem C7_dispatch_bookkeeping (self : GestureController) (gesture : string) (t : float) :
  within_cooldown self t = false ->
  last_triggered_gesture self <> Some gesture ->
  let self' := _trigger_gesture self gesture t in
  last_triggered_gesture self' = Some gesture
  /\ last_gesture_time self' = t
  /\ (dict_get GESTURE_ACTIONS gesture = None -> calls self' = calls self)
  /\ (forall action,
         dict_get GESTURE_ACTIONS gesture = Some action ->
         on_gesture_callback self = true ->
         calls self' = calls self ++ [(gesture, action)]).
Proof.
  intros Hcool Hneq. cbv zeta.
  rewrite (_trigger_gesture_dispatch _ _ _ Hcool Hneq). cbv zeta.
  destruct (dict_get GESTURE_ACTIONS gesture) as [action|];
    [destruct (on_gesture_callback self) eqn:Hcb|]; cbn;
    repeat split; try congruence; intros; congruence.
Qed.

Lemma C7_witness :
  (let self' := _trigger_gesture (init true) "wave" 10 in
   last_triggered_gesture self' = Some "wave"
   /\ last_gesture_time self' = 10%float
   /\ calls self' = [])
  /\ (let self' := _trigger_gesture (init true) "fist" 10 in
      last_triggered_gesture self' = Some "fist"
      /\ last_gesture_time self' = 10%float
      /\ calls self' = [("fist", "stop_tts")]).
Proof.
  split; cbv zeta.
  - destruct (C7_dispatch_bookkeeping (init true) "wave" 10%float)
      as (H1 & H2 & H3 & _); [reflexivity | discriminate |].
    split; [exact H1 | split; [exact H2 | apply H3; reflexivity]].
  - destruct (C7_dispatch_bookkeeping (init true) "fist" 10%float)
      as (H1 & H2 & _ & H4); [reflexivity | discriminate |].
    split; [exact H1 | split; [exact H2 | apply (H4 "stop_tts"); reflexivity]].
Defined.

(** ** Temporal stabiliser *)

Section Counting.

Lemma label_eqb_refl (g : option string) : label_eqb g g = true.
Proof. apply label_eqb_eq. reflexivity. Qed.

Lemma occurrences_app g h1 h2 :
  occurrences g (h1 ++ h2) = occurrences g h1 + occurrences g h2.
Proof. induction h1 as [|a h1 IH]; cbn; [reflexivity | rewrite IH; lia]. Qed.

Lemma occurrences_zero g h : occurrences g h = 0 <-> ~ In g h.
Proof.
  induction h as [|a h IH]; cbn; [tauto|].
  destruct (label_eqb a g) eqn:E.
  - apply label_eqb_eq in E. split; [discriminate | intros H; exfalso; apply H; auto].
  - apply label_eqb_neq in E. cbn. rewrite IH. tauto.
Qed.

Lemma occurrences_pos g h : 0 < occurrences g h -> In g h.
Proof.
  induction h as [|a h IH]; cbn; [lia|].
  destruct (label_eqb a g) eqn:E.
  - apply label_eqb_eq in E. auto.
  - cbn. auto.
Qed.

Lemma occurrences_le_length g h : occurrences g h <= List.length h.
Proof.
  induction h as [|a h IH]; cbn; [lia|].
  destruct (label_eqb a g); lia.
Qed.

Lemma occurrences_two g1 g2 h :
  g1 <> g2 -> occurrences g1 h + occurrences g2 h <= List.length h.
Proof.
  intros Hneq. induction h as [|a h IH]; cbn; [lia|].
  destruct (label_eqb a g1) eqn:E1, (label_eqb a g2) eqn:E2; try lia.
  apply label_eqb_eq in E1, E2. congruence.
Qed.

Lemma first_index_In g h : In g h -> first_index g h < List.length h.
Proof.
  induction h as [|a h IH]; cbn; [tauto|].
  intros [-> | H]; [rewrite label_eqb_refl; lia|].
  destruct (label_eqb a g); [lia | specialize (IH H); lia].
Qed.

Lemma first_index_app_In g h1 h2 :
  In g h1 -> first_index g (h1 ++ h2) = first_index g h1.
Proof.
  induction h1 as [|a h1 IH]; cbn; [tauto|].
  intros [-> | H]; [rewrite label_eqb_refl; reflexivity|].
  destruct (label_eqb a g); [reflexivity | rewrite (IH H); reflexivity].
Qed.

Lemma first_index_app_new g h :
  ~ In g h -> first_index g (h ++ [g]) = List.length h.
Proof.
  induction h as [|a h IH]; cbn; intros H.
  - rewrite label_eqb_refl. reflexivity.
  - assert (label_eqb a g = false) as -> by (apply label_eqb_neq; tauto).
    rewrite IH by tauto. reflexivity.
Qed.

(** *** The counting dictionary *)

Lemma dict_get_In {V} (d : list (string * V)) k v :
  dict_get d k = Some v -> In (k, v) d.
Proof.
  induction d as [|[k' v'] d IH]; cbn; [discriminate|].
  destruct (k' =? k)%string eqn:E.
  - apply String.eqb_eq in E. intros [= ->]. subst. auto.
  - auto.
Qed.

Lemma dict_get_None {V} (d : list (string * V)) k :
  dict_get d k = None <-> ~ In k (map fst d).
Proof.
  induction d as [|[k' v'] d IH]; cbn; [tauto|].
  destruct (k' =? k)%string eqn:E.
  - apply String.eqb_eq in E. split; [discriminate | tauto].
  - apply String.eqb_neq in E. rewrite IH. tauto.
Qed.

Lemma In_dict_get {V} (d : list (string * V)) k v :
  NoDup (map fst d) -> In (k, v) d -> dict_get d k = Some v.
Proof.
  induction d as [|[k' v'] d IH]; cbn; [tauto|].
  intros Hnd [[= -> ->] | Hin].
  - rewrite String.eqb_refl. reflexivity.
  - inversion Hnd as [|? ? Hnotin Hnd']; subst.
    destruct (k' =? k)%string eqn:E; [|auto].
    apply String.eqb_eq in E. subst. exfalso. apply Hnotin.
    apply (in_map fst) in Hin. exact Hin.
Qed.

Lemma dict_get_incr counts g k :
  dict_get (incr counts g) k =
    if (g =? k)%string
    then Some (match dict_get counts g with Some n => n + 1 | None => 1 end)
    else dict_get counts k.
Proof.
  induction counts as [|[k' n] counts IH]; cbn.
  - destruct (g =? k)%string; reflexivity.
  - destruct (k' =? g)%string eqn:E; cbn.
    + apply String.eqb_eq in E. subst. destruct (g =? k)%string; reflexivity.
    + rewrite IH. destruct (g =? k)%string eqn:E'; [|reflexivity].
      apply String.eqb_eq in E'. subst. rewrite E. reflexivity.
Qed.

Lemma keys_incr counts g :
  map fst (incr counts g) =
    match dict_get counts g with
    | Some _ => map fst counts
    | None => map fst counts ++ [g]
    end.
Proof.
  induction counts as [|[k' n] counts IH]; cbn; [reflexivity|].
  destruct (k' =? g)%string; cbn; [reflexivity|].
  rewrite IH. destruct (dict_get counts g); reflexivity.
Qed.

Lemma count_gestures_snoc h g :
  count_gestures (h ++ [g]) = count_step (count_gestures h) g.
Proof. unfold count_gestures. rewrite fold_left_app. reflexivity. Qed.

(** The value stored for a label is its number of occurrences; falsy
    entries and absent labels have no key. *)
Lemma dict_get_count_gestures h k :
  dict_get (count_gestures h) k =
    if str_truthy k && negb (occurrences (Some k) h =? 0)
    then Some (occurrences (Some k) h) else None.
Proof.
  induction h as [|g h IH] using rev_ind.
  - cbn. rewrite andb_false_r. reflexivity.
  - rewrite count_gestures_snoc, occurrences_app. cbn [occurrences].
    unfold count_step. destruct g as [s|]; cbn [truthy label_eqb].
    + destruct (str_truthy s) eqn:Hs.
      * rewrite dict_get_incr. destruct (s =? k)%string eqn:E.
        -- apply String.eqb_eq in E. subst k. rewrite IH, Hs. cbn [andb].
           destruct (occurrences (Some s) h) as [|n]; cbn; f_equal; lia.
        -- rewrite IH. rewrite !Nat.add_0_r. reflexivity.
      * rewrite IH. destruct (s =? k)%string eqn:E.
        -- apply String.eqb_eq in E. subst k. rewrite Hs. reflexivity.
        -- rewrite !Nat.add_0_r. reflexivity.
    + rewrite IH. rewrite !Nat.add_0_r. reflexivity.
Qed.

Lemma keys_NoDup h : NoDup (map fst (count_gestures h)).
Proof.
  induction h as [|g h IH] using rev_ind; [constructor|].
  rewrite count_gestures_snoc. unfold count_step.
  destruct g as [s|]; [|exact IH].
  destruct (truthy (Some s)); [|exact IH].
  rewrite keys_incr.
  destruct (dict_get (count_gestures h) s) eqn:E; [exact IH|].
  apply dict_get_None in E.
  apply NoDup_rev in IH. rewrite <- (rev_involutive (_ ++ [s])).
  apply NoDup_rev. rewrite rev_app_distr. cbn. constructor; [|exact IH].
  rewrite <- in_rev. exact E.
Qed.

Lemma In_count_gestures h k n :
  In (k, n) (count_gestures h) ->
  str_truthy k = true /\ n = occurrences (Some k) h /\ 0 < n.
Proof.
  intros Hin. apply (In_dict_get _ _ _ (keys_NoDup h)) in Hin.
  rewrite dict_get_count_gestures in Hin.
  destruct (str_truthy k); [|discriminate]. cbn [andb] in Hin.
  destruct (occurrences (Some k) h =? 0) eqn:E; [discriminate|].
  apply Nat.eqb_neq in E. injection Hin as <-. repeat split; lia.
Qed.

Lemma count_gestures_In h k :
  str_truthy k = true -> 0 < occurrences (Some k) h ->
  In (k, occurrences (Some k) h) (count_gestures h).
Proof.
  intros Hk Hpos. apply dict_get_In. rewrite dict_get_count_gestures, Hk.
  destruct (occurrences (Some k) h =? 0) eqn:E; [|reflexivity].
  apply Nat.eqb_eq in E. lia.
Qed.

End Counting.

Section Selection.

Lemma key_occurs h k : In k (map fst (count_gestures h)) -> In (Some k) h.
Proof.
  rewrite in_map_iff. intros ([k' n] & <- & Hin). cbn.
  apply In_count_gestures in Hin. destruct Hin as (_ & -> & Hpos).
  apply occurrences_pos. exact Hpos.
Qed.

Lemma new_key_absent h s :
  str_truthy s = true -> dict_get (count_gestures h) s = None -> ~ In (Some s) h.
Proof.
  intros Hs E. rewrite dict_get_count_gestures, Hs in E. cbn [andb] in E.
  destruct (occurrences (Some s) h =? 0) eqn:E0; [|discriminate].
  apply Nat.eqb_eq in E0. apply occurrences_zero. exact E0.
Qed.

Lemma snoc_split {A} (l : list A) a pre k post :
  l ++ [a] = pre ++ k :: post ->
  (post = [] /\ l = pre /\ a = k)
  \/ (exists post', post = post' ++ [a] /\ l = pre ++ k :: post').
Proof.
  destruct post as [|p post] using rev_ind.
  - intros H. apply app_inj_tail in H. tauto.
  - clear IHpost. intros H. right. exists post.
    change (pre ++ k :: post ++ [p]) with (pre ++ (k :: post) ++ [p]) in H.
    rewrite app_assoc in H. apply app_inj_tail in H.
    destruct H as [-> ->]. auto.
Qed.

Lemma keys_ordered h : keys_by_first_seen h (map fst (count_gestures h)).
Proof.
  induction h as [|g h IH] using rev_ind.
  - intros pre k post H. destruct pre; discriminate.
  - assert (Hkeep : keys_by_first_seen (h ++ [g]) (map fst (count_gestures h))).
    { intros pre k post H k' Hk'.
      assert (In k (map fst (count_gestures h))) by (rewrite H, in_app_iff; cbn; auto).
      assert (In k' (map fst (count_gestures h))) by (rewrite H, in_app_iff; cbn; auto).
      rewrite !first_index_app_In by (apply key_occurs; assumption).
      exact (IH pre k post H k' Hk'). }
    rewrite count_gestures_snoc. unfold count_step.
    destruct g as [s|]; [|exact Hkeep].
    cbn [truthy]. destruct (str_truthy s) eqn:Hs; [|exact Hkeep].
    rewrite keys_incr.
    destruct (dict_get (count_gestures h) s) eqn:E; [exact Hkeep|].
    apply (new_key_absent _ _ Hs) in E.
    intros pre k post H k' Hk'.
    apply snoc_split in H. destruct H as [(-> & _ & _) | (post' & -> & H)]; [destruct Hk'|].
    apply in_app_iff in Hk'. destruct Hk' as [Hk' | [<- | []]].
    + exact (Hkeep pre k post' H k' Hk').
    + assert (Hk : In k (map fst (count_gestures h))) by (rewrite H, in_app_iff; cbn; auto).
      apply key_occurs in Hk.
      rewrite (first_index_app_In _ _ _ Hk), (first_index_app_new _ _ E).
      apply first_index_In. exact Hk.
Qed.

(** [max] keeps the first entry that attains the greatest value. *)
Lemma max_from_split rest : forall best pre mid,
  (forall e, In e pre -> snd e < snd best) ->
  (forall e, In e mid -> snd e <= snd best) ->
  exists pre' post',
    pre ++ best :: mid ++ rest = pre' ++ max_from best rest :: post'
    /\ (forall e, In e pre' -> snd e < snd (max_from best rest))
    /\ (forall e, In e post' -> snd e <= snd (max_from best rest)).
Proof.
  induction rest as [|e rest IH]; intros best pre mid Hpre Hmid; cbn [max_from].
  - exists pre, mid. rewrite app_nil_r. auto.
  - destruct (snd best <? snd e) eqn:E.
    + apply Nat.ltb_lt in E.
      destruct (IH e (pre ++ best :: mid) []) as (pre' & post' & Heq & H1 & H2).
      * intros e' He'. apply in_app_iff in He'. destruct He' as [He' | [<- | He']].
        -- specialize (Hpre _ He'). lia.
        -- exact E.
        -- specialize (Hmid _ He'). lia.
      * intros e' [].
      * exists pre', post'. split; [|auto].
        rewrite <- Heq. rewrite <- app_assoc. reflexivity.
    + apply Nat.ltb_ge in E.
      destruct (IH best pre (mid ++ [e])) as (pre' & post' & Heq & H1 & H2).
      * exact Hpre.
      * intros e' He'. apply in_app_iff in He'. destruct He' as [He' | [<- | []]]; auto.
      * exists pre', post'. split; [|auto].
        rewrite <- Heq. rewrite <- app_assoc. reflexivity.
Qed.

Lemma most_common_split h m c :
  most_common h = Some (m, c) ->
  exists pre post,
    count_gestures h = pre ++ (m, c) :: post
    /\ (forall e, In e pre -> snd e < c)
    /\ (forall e, In e post -> snd e <= c).
Proof.
  unfold most_common. destruct (count_gestures h) as [|e rest]; [discriminate|].
  intros [= H].
  destruct (max_from_split rest e [] []) as (pre & post & Heq & H1 & H2);
    [intros ? [] | intros ? [] |].
  rewrite H in *. exists pre, post. auto.
Qed.

Lemma most_common_None h :
  most_common h = None -> forall k, str_truthy k = true -> occurrences (Some k) h = 0.
Proof.
  unfold most_common. destruct (count_gestures h) as [|e rest] eqn:E; [|discriminate].
  intros _ k Hk. destruct (occurrences (Some k) h) eqn:Ho; [reflexivity|].
  assert (Hin : In (k, occurrences (Some k) h) (count_gestures h))
    by (apply count_gestures_In; [exact Hk | lia]).
  rewrite E in Hin. destruct Hin.
Qed.

(** The selected pair is a truthy label with its own count, and no label
    occurs more often. *)
Lemma most_common_max h m c :
  most_common h = Some (m, c) ->
  str_truthy m = true /\ c = occurrences (Some m) h /\ 0 < c
  /\ forall k, str_truthy k = true -> occurrences (Some k) h <= c.
Proof.
  intros H. destruct (most_common_split _ _ _ H) as (pre & post & Heq & Hpre & Hpost).
  assert (Hin : In (m, c) (count_gestures h)) by (rewrite Heq, in_app_iff; cbn; auto).
  destruct (In_count_gestures _ _ _ Hin) as (Hm & Hc & Hpos).
  repeat split; try assumption.
  intros k Hk. destruct (occurrences (Some k) h) eqn:Ho; [lia|].
  assert (Hk' : In (k, occurrences (Some k) h) (count_gestures h))
    by (apply count_gestures_In; [exact Hk | lia]).
  rewrite Ho, Heq in Hk'. apply in_app_iff in Hk'.
  destruct Hk' as [Hk' | [E | Hk']].
  - specialize (Hpre _ Hk'). cbn in Hpre. lia.
  - assert (c = S n) by congruence. lia.
  - specialize (Hpost _ Hk'). cbn in Hpost. lia.
Qed.

(** Among the labels with the greatest count the one seen first is selected. *)
Lemma most_common_first h m c k :
  most_common h = Some (m, c) ->
  k <> m -> str_truthy k = true -> occurrences (Some k) h = c ->
  first_index (Some m) h < first_index (Some k) h.
Proof.
  intros H Hneq Hk Hc.
  destruct (most_common_max _ _ _ H) as (_ & _ & Hpos & _).
  destruct (most_common_split _ _ _ H) as (pre & post & Heq & Hpre & _).
  assert (Hin : In (k, occurrences (Some k) h) (count_gestures h))
    by (apply count_gestures_In; [exact Hk | lia]).
  rewrite Hc, Heq in Hin. apply in_app_iff in Hin.
  destruct Hin as [Hin | [E | Hin]].
  - specialize (Hpre _ Hin). cbn in Hpre. lia.
  - congruence.
  - apply (keys_ordered h (map fst pre) m (map fst post)).
    + rewrite Heq, map_app. reflexivity.
    + apply (in_map fst) in Hin. exact Hin.
Qed.

End Selection.

Section Stabiliser.

(** On buffers of at most ten entries the float comparison
    [count >= len * 0.6] agrees with the exact [10 * count >= 6 * len]. *)
Lemma reaches_threshold_exact count len :
  len <= 10 -> count <= 10 ->
  reaches_threshold count len = (6 * len <=? 10 * count).
Proof.
  intros Hl Hc.
  do 11 (destruct len as [|len];
         [do 11 (destruct count as [|count]; [vm_compute; reflexivity|]); lia|]).
  lia.
Qed.

Lemma deque_append_length {A} (maxlen : nat) (d : list A) (v : A) :
  List.length d <= maxlen -> 0 < maxlen ->
  List.length (deque_append maxlen d v) <= maxlen.
Proof.
  intros Hd Hpos. unfold deque_append.
  destruct (maxlen <? List.length (d ++ [v])) eqn:E.
  - destruct d as [|a d]; cbn in *; [lia|].
    rewrite length_app in *. cbn in *. lia.
  - apply Nat.ltb_ge in E. exact E.
Qed.

Lemma _get_stable_gesture_history self g :
  gesture_history (fst (_get_stable_gesture self g))
  = deque_append HISTORY_MAXLEN (gesture_history self) g.
Proof. reflexivity. Qed.

Lemma _get_stable_gesture_result self g :
  snd (_get_stable_gesture self g)
  = stable_of (gesture_history (fst (_get_stable_gesture self g))).
Proof. reflexivity. Qed.

Lemma _get_stable_gesture_bounded self g :
  List.length (gesture_history self) <= 10 ->
  List.length (gesture_history (fst (_get_stable_gesture self g))) <= 10.
Proof.
  intros H. rewrite _get_stable_gesture_history.
  apply deque_append_length; [exact H | unfold HISTORY_MAXLEN; lia].
Qed.

Lemma stable_of_short h : List.length h < 5 -> stable_of h = None.
Proof.
  intros H. unfold stable_of.
  apply Nat.ltb_lt in H. rewrite H. reflexivity.
Qed.

Lemma stable_of_Some h l :
  List.length h <= 10 ->
  (stable_of h = Some l
   <-> 5 <= List.length h /\ str_truthy l = true
       /\ 6 * List.length h <= 10 * occurrences (Some l) h).
Proof.
  intros Hlen. unfold stable_of.
  destruct (List.length h <? 5) eqn:E5.
  { apply Nat.ltb_lt in E5. split; [discriminate | lia]. }
  apply Nat.ltb_ge in E5.
  destruct (most_common h) as [[m c]|] eqn:Hmc.
  - destruct (most_common_max _ _ _ Hmc) as (Hm & Hc & Hpos & Hmax).
    pose proof (occurrences_le_length (Some m) h) as Hle.
    rewrite reaches_threshold_exact by lia.
    destruct (6 * List.length h <=? 10 * c) eqn:E.
    + apply Nat.leb_le in E. split.
      * intros [= <-]. repeat split; try assumption; lia.
      * intros (_ & Hl & H6). destruct (String.string_dec m l) as [-> | Hneq]; [reflexivity|].
        assert (Some l <> Some m) by congruence.
        pose proof (occurrences_two (Some l) (Some m) h ltac:(assumption)).
        specialize (Hmax l Hl). lia.
    + apply Nat.leb_gt in E. split; [discriminate|].
      intros (_ & Hl & H6). specialize (Hmax l Hl). lia.
  - split; [discriminate|].
    intros (_ & Hl & H6). pose proof (most_common_None _ Hmc l Hl). lia.
Qed.

Lemma stable_of_most_common h l :
  stable_of h = Some l ->
  forall k, str_truthy k = true ->
  occurrences (Some k) h <= occurrences (Some l) h.
Proof.
  unfold stable_of. destruct (List.length h <? 5); [discriminate|].
  destruct (most_common h) as [[m c]|] eqn:Hmc; [|discriminate].
  destruct (reaches_threshold c (List.length h)); [|discriminate].
  intros [= <-]. destruct (most_common_max _ _ _ Hmc) as (_ & -> & _ & Hmax).
  exact Hmax.
Qed.

Lemma stable_of_not_Some h :
  (forall l, stable_of h <> Some l) -> stable_of h = None.
Proof. destruct (stable_of h) as [l|]; [intros H; destruct (H l eq_refl) | reflexivity]. Qed.

End Stabiliser.

(** C6. While the buffer, the current raw label included, holds fewer than
    five samples the stabiliser answers none, whatever the samples are; so do
    the first four calls after the buffer was empty. *)
Theorem C6_cold_start :
  (forall self current_gesture,
      List.length (gesture_history (fst (_get_stable_gesture self current_gesture))) < 5 ->
      snd (_get_stable_gesture self current_gesture) = None)
  /\ (forall self g1 g2 g3 g4,
         gesture_history self = [] ->
         let r1 := _get_stable_gesture self g1 in
         let r2 := _get_stable_gesture (fst r1) g2 in
         let r3 := _get_stable_gesture (fst r2) g3 in
         let r4 := _get_stable_gesture (fst r3) g4 in
         snd r1 = None /\ snd r2 = None /\ snd r3 = None /\ snd r4 = None).
Proof.
  split.
  - intros self g H. rewrite _get_stable_gesture_result. apply stable_of_short. exact H.
  - intros self g1 g2 g3 g4 Hempty. cbv zeta.
    rewrite !_get_stable_gesture_result, !_get_stable_gesture_history, Hempty.
    repeat split; apply stable_of_short; cbn; lia.
Qed.

Lemma C6_witness :
  let self := init true in
  let r1 := _get_stable_gesture self (Some "fist") in
  let r2 := _get_stable_gesture (fst r1) (Some "fist") in
  let r3 := _get_stable_gesture (fst r2) (Some "fist") in
  let r4 := _get_stable_gesture (fst r3) (Some "fist") in
  snd r1 = None /\ snd r2 = None /\ snd r3 = None /\ snd r4 = None.
Proof.
  destruct C6_cold_start as (_ & H).
  apply (H (init true) (Some "fist") (Some "fist") (Some "fist") (Some "fist")).
  reflexivity.
Defined.

(** C2. On a buffer of ten entries, six of them "peace" and four none, the
    stabiliser answers "peace"; with exactly five "peace" entries it answers
    none.  In general it answers a label exactly when the buffer holds at
    least five entries and the label is truthy and fills at least 60% of the
    buffer, none entries counted in the length; that label is then the most
    common one. *)
Theorem C2_majority_threshold (self : GestureController) (current_gesture : option string) :
  List.length (gesture_history self) <= 10 ->
  let r := _get_stable_gesture self current_gesture in
  let h := gesture_history (fst r) in
  (List.length h = 10 -> occurrences (Some "peace") h = 6 -> occurrences None h = 4 ->
   snd r = Some "peace")
  /\ (List.length h = 10 -> occurrences (Some "peace") h = 5 -> snd r = None)
  /\ (forall l, snd r = Some l
                <-> 5 <= List.length h /\ str_truthy l = true
                    /\ 6 * List.length h <= 10 * occurrences (Some l) h)
  /\ (forall l, snd r = Some l ->
      forall k, str_truthy k = true ->
      occurrences (Some k) h <= occurrences (Some l) h).
Proof.
  intros Hlen. cbv zeta.
  pose proof (_get_stable_gesture_bounded self current_gesture Hlen) as Hb.
  rewrite _get_stable_gesture_result.
  set (h := gesture_history (fst (_get_stable_gesture self current_gesture))) in *.
  split; [|split; [|split]].
  - intros H10 H6 _. apply stable_of_Some; [exact Hb|].
    rewrite H10, H6. repeat split; lia.
  - intros H10 H5. apply stable_of_not_Some. intros l Hl.
    pose proof (stable_of_most_common _ _ Hl "peace" eq_refl) as Hmax.
    apply stable_of_Some in Hl; [|exact Hb]. destruct Hl as (_ & _ & H6).
    destruct (String.string_dec l "peace") as [-> | Hneq]; [lia|].
    assert (Some l <> Some "peace") by congruence.
    pose proof (occurrences_two (Some l) (Some "peace") h ltac:(assumption)). lia.
  - intros l. apply stable_of_Some. exact Hb.
  - intros l. apply stable_of_most_common.
Qed.

Lemma C2_witness :
  snd (_get_stable_gesture (with_history peace_5_of_10) (Some "peace")) = Some "peace"
  /\ snd (_get_stable_gesture (with_history peace_fist_9) (Some "fist")) = None.
Proof.
  split.
  - destruct (C2_majority_threshold (with_history peace_5_of_10) (Some "peace"))
      as (H & _); [cbn; lia|].
    apply H; reflexivity.
  - destruct (C2_majority_threshold (with_history peace_fist_9) (Some "fist"))
      as (_ & H & _); [cbn; lia|].
    apply H; reflexivity.
Defined.

(** C9, as stated, fails: "peace" and "fist" are tied at five of ten and
    "peace" is seen first, yet the stabiliser answers none, not "peace". *)
Lemma C9_counterexample :
  let r := _get_stable_gesture (with_history peace_fist_9) (Some "fist") in
  let h := gesture_history (fst r) in
  occurrences (Some "peace") h = 5
  /\ occurrences (Some "fist") h = 5
  /\ (forall k, str_truthy k = true -> occurrences (Some k) h <= 5)
  /\ first_index (Some "peace") h = 0
  /\ first_index (Some "fist") h = 1
  /\ most_common h = Some ("peace", 5)
  /\ snd r = None
  /\ snd r <> Some "peace".
Proof.
  cbv zeta.
  assert (Hmc : most_common (gesture_history
            (fst (_get_stable_gesture (with_history peace_fist_9) (Some "fist"))))
          = Some ("peace", 5)) by (vm_compute; reflexivity).
  split; [reflexivity|]. split; [reflexivity|].
  split; [exact (proj2 (proj2 (proj2 (most_common_max _ _ _ Hmc))))|].
  split; [reflexivity|]. split; [reflexivity|].
  split; [exact Hmc|].
  split; [vm_compute; reflexivity | vm_compute; discriminate].
Qed.

(** C9, amended.  The stabiliser's answer depends on the buffer and the
    current label only.  The label it selects as most common has the greatest
    count and, among the labels tied at that count, the earliest first
    occurrence in the buffer.  But on a tie the answer is none: a tied count is
    at most half of the buffer and never reaches the 60% threshold. *)
Theorem C9_tie_break :
  (forall s1 s2 current_gesture,
      gesture_history s1 = gesture_history s2 ->
      snd (_get_stable_gesture s1 current_gesture)
      = snd (_get_stable_gesture s2 current_gesture))
  /\ (forall h m c,
         most_common h = Some (m, c) ->
         c = occurrences (Some m) h
         /\ (forall k, str_truthy k = true -> occurrences (Some k) h <= c)
         /\ (forall k, k <> m -> str_truthy k = true -> occurrences (Some k) h = c ->
             first_index (Some m) h < first_index (Some k) h))
  /\ (forall self current_gesture k1 k2,
         List.length (gesture_history self) <= 10 ->
         let r := _get_stable_gesture self current_gesture in
         let h := gesture_history (fst r) in
         k1 <> k2 -> str_truthy k1 = true -> str_truthy k2 = true ->
         occurrences (Some k1) h = occurrences (Some k2) h ->
         (forall k, str_truthy k = true -> occurrences (Some k) h <= occurrences (Some k1) h) ->
         snd r = None).
Proof.
  split; [|split].
  - intros s1 s2 g H. unfold _get_stable_gesture. cbn. rewrite H. reflexivity.
  - intros h m c H. destruct (most_common_max _ _ _ H) as (_ & Hc & _ & Hmax).
    repeat split; try assumption.
    intros k. apply most_common_first. exact H.
  - intros self g k1 k2 Hlen. cbv zeta. intros Hneq H1 H2 Htie Hmax.
    pose proof (_get_stable_gesture_bounded self g Hlen) as Hb.
    rewrite _get_stable_gesture_result.
    set (h := gesture_history (fst (_get_stable_gesture self g))) in *.
    apply stable_of_not_Some. intros l Hl.
    pose proof (stable_of_most_common _ _ Hl k1 H1) as Hl1.
    apply stable_of_Some in Hl; [|exact Hb]. destruct Hl as (H5 & Hlt & H6).
    specialize (Hmax l Hlt).
    assert (Some k1 <> Some k2) by congruence.
    pose proof (occurrences_two (Some k1) (Some k2) h ltac:(assumption)). lia.
Qed.

Lemma C9_witness :
  let r := _get_stable_gesture (with_history peace_fist_9) (Some "fist") in
  let h := gesture_history (fst r) in
  first_index (Some "peace") h < first_index (Some "fist") h
  /\ snd r = None.
Proof.
  cbv zeta. destruct C9_tie_break as (_ & Hsel & Htie).
  assert (Hmc : most_common (gesture_history
            (fst (_get_stable_gesture (with_history peace_fist_9) (Some "fist"))))
          = Some ("peace", 5)) by (vm_compute; reflexivity).
  destruct (Hsel _ _ _ Hmc) as (_ & Hmax & Hfirst).
  split.
  - apply Hfirst; [discriminate | reflexivity | reflexivity].
  - apply (Htie (with_history peace_fist_9) (Some "fist") "peace" "fist");
      [cbn; lia | discriminate | reflexivity | reflexivity | reflexivity | exact Hmax].
Defined.

(** ** Frame loop *)

(** Splits an equation between two [gate_state] tuples into one equation per
    field. *)
Ltac gate_fields H :=
  unfold gate_state in H;
  let Hcb := fresh "Hcb" in
  let Htime := fresh "Htime" in
  let Hcd := fresh "Hcd" in
  let Hlast := fresh "Hlast" in
  let Hcalls := fresh "Hcalls" in
  injection H as Hcb Htime Hcd Hlast Hcalls.

Section FrameLoop.

Lemma stable_of_truthy h l : stable_of h = Some l -> str_truthy l = true.
Proof.
  unfold stable_of. destruct (List.length h <? 5); [discriminate|].
  destruct (most_common h) as [[m c]|] eqn:Hmc; [|discriminate].
  destruct (reaches_threshold c (List.length h)); [|discriminate].
  intros [= <-]. apply (most_common_max _ _ _ Hmc).
Qed.

(** One frame with one hand: stabilise, then dispatch a stable label. *)
Lemma process_hand_frame self h :
  process_frame self (hand_frame h) =
    let r := _get_stable_gesture self (detect_gesture (fst h)) in
    match snd r with
    | Some g => (_trigger_gesture (fst r) g (snd h), Some g)
    | None => (fst r, None)
    end.
Proof.
  unfold hand_frame, process_frame. cbn [fold_left]. unfold process_hand. cbn [fst].
  destruct (_get_stable_gesture self (detect_gesture (fst h))) as [s o] eqn:E.
  cbv zeta. cbn [fst snd].
  destruct o as [g|]; [|reflexivity].
  assert (Ho : stable_of (gesture_history s) = Some g).
  { pose proof (_get_stable_gesture_result self (detect_gesture (fst h))) as H.
    rewrite E in H. cbn [fst snd] in H. congruence. }
  cbn [truthy]. rewrite (stable_of_truthy _ _ Ho). reflexivity.
Qed.

Lemma run_cons_fst self c cs :
  fst (run self (c :: cs)) = fst (run (fst (process_frame self c)) cs).
Proof.
  cbn [run]. destruct (process_frame self c) as [s o]. cbn [fst snd].
  destruct (run s cs). reflexivity.
Qed.

Lemma run_cons_snd self c cs :
  snd (run self (c :: cs))
  = snd (process_frame self c) :: snd (run (fst (process_frame self c)) cs).
Proof.
  cbn [run]. destruct (process_frame self c) as [s o]. cbn [fst snd].
  destruct (run s cs). reflexivity.
Qed.

Lemma map_hand_frame_cons h hands :
  map hand_frame (h :: hands) = hand_frame h :: map hand_frame hands.
Proof. reflexivity. Qed.

Lemma gate_state__get_stable_gesture self g :
  gate_state (fst (_get_stable_gesture self g)) = gate_state self.
Proof. reflexivity. Qed.

(** A frame whose stable label is none leaves the gate alone. *)
Lemma quiet_frame self h :
  snd (process_frame self (hand_frame h)) = None ->
  gate_state (fst (process_frame self (hand_frame h))) = gate_state self.
Proof.
  rewrite process_hand_frame. cbv zeta.
  destruct (snd (_get_stable_gesture self (detect_gesture (fst h)))); [discriminate|].
  intros _. reflexivity.
Qed.

Lemma quiet_run hands : forall self,
  Forall (fun o => o = None) (snd (run self (map hand_frame hands))) ->
  gate_state (fst (run self (map hand_frame hands))) = gate_state self.
Proof.
  induction hands as [|h hands IH]; intros self H; [reflexivity|].
  rewrite map_hand_frame_cons in *. rewrite run_cons_snd in H. rewrite run_cons_fst.
  inversion H as [|? ? Hh Hrest]; subst.
  rewrite (IH (fst (process_frame self (hand_frame h))) Hrest).
  apply quiet_frame. exact Hh.
Qed.

(** While the buffer is short a frame only appends its raw label. *)
Lemma cold_frame self h :
  List.length (gesture_history self) < 4 ->
  process_frame self (hand_frame h)
  = (set_history self (gesture_history self ++ [detect_gesture (fst h)]), None).
Proof.
  intros Hlen. rewrite process_hand_frame. cbv zeta.
  rewrite _get_stable_gesture_result, _get_stable_gesture_history.
  unfold _get_stable_gesture, deque_append, HISTORY_MAXLEN. cbn [fst gesture_history set_history].
  assert (El : List.length (gesture_history self ++ [detect_gesture (fst h)])
               = S (List.length (gesture_history self)))
    by (rewrite length_app; cbn; lia).
  assert ((10 <? List.length (gesture_history self ++ [detect_gesture (fst h)])) = false) as ->
    by (apply Nat.ltb_ge; lia).
  rewrite stable_of_short by lia. reflexivity.
Qed.

Lemma cold_run hands : forall self,
  List.length (gesture_history self) + List.length hands < 5 ->
  run self (map hand_frame hands)
  = (set_history self (gesture_history self ++ map (fun h => detect_gesture (fst h)) hands),
     repeat None (List.length hands)).
Proof.
  induction hands as [|h hands IH]; intros self Hlen.
  - cbn. rewrite app_nil_r. destruct self; reflexivity.
  - rewrite map_hand_frame_cons.
    rewrite (surjective_pairing (run self (hand_frame h :: map hand_frame hands))).
    rewrite run_cons_fst, run_cons_snd.
    cbn [List.length] in Hlen. rewrite cold_frame by lia.
    change (fst (?a, ?b)) with a. change (snd (?a, ?b)) with b.
    rewrite IH by (cbn [gesture_history set_history]; rewrite length_app; cbn; lia).
    cbn [fst snd gesture_history set_history map List.length repeat].
    rewrite <- app_assoc. reflexivity.
Qed.

(** Within the cooldown a capture leaves the gate's clock and the calls
    untouched. *)
Lemma cooling_hand h : forall acc self,
  within_cooldown self (snd h) = true ->
  last_gesture_time (fst acc) = last_gesture_time self ->
  cooldown (fst acc) = cooldown self ->
  let acc' := process_hand acc h in
  last_gesture_time (fst acc') = last_gesture_time self
  /\ cooldown (fst acc') = cooldown self
  /\ calls (fst acc') = calls (fst acc).
Proof.
  intros [s o] self Hc Ht Hcd. cbn [fst] in *. cbv zeta.
  unfold process_hand. cbn [fst].
  destruct (_get_stable_gesture s (detect_gesture (fst h))) as [s' o'] eqn:E.
  assert (Hg : gate_state s' = gate_state s).
  { pose proof (gate_state__get_stable_gesture s (detect_gesture (fst h))) as H.
    rewrite E in H. exact H. }
  gate_fields Hg.
  destruct (truthy o'); [|cbn [fst]; repeat split; congruence].
  destruct o' as [g|]; [|cbn [fst]; repeat split; congruence].
  cbn [fst]. rewrite _trigger_gesture_cooling.
  - repeat split; congruence.
  - unfold within_cooldown in *. rewrite Htime, Hcd0, Ht, Hcd. exact Hc.
Qed.

Lemma cooling_hands hands : forall acc self,
  Forall (fun h => within_cooldown self (snd h) = true) hands ->
  last_gesture_time (fst acc) = last_gesture_time self ->
  cooldown (fst acc) = cooldown self ->
  let acc' := fold_left process_hand hands acc in
  last_gesture_time (fst acc') = last_gesture_time self
  /\ cooldown (fst acc') = cooldown self
  /\ calls (fst acc') = calls (fst acc).
Proof.
  induction hands as [|h hands IH]; intros acc self H Ht Hcd; cbv zeta.
  - cbn. auto.
  - inversion H as [|? ? Hh Hrest]; subst. cbn [fold_left].
    destruct (cooling_hand h acc self Hh Ht Hcd) as (H1 & H2 & H3).
    destruct (IH (process_hand acc h) self Hrest H1 H2) as (H4 & H5 & H6).
    repeat split; congruence.
Qed.

Lemma cooling_frame self0 self c :
  clocks_within_cooldown self0 c ->
  last_gesture_time self = last_gesture_time self0 ->
  cooldown self = cooldown self0 ->
  let self' := fst (process_frame self c) in
  last_gesture_time self' = last_gesture_time self0
  /\ cooldown self' = cooldown self0
  /\ calls self' = calls self.
Proof.
  intros Hc Ht Hcd. cbv zeta. destruct c as [|hands]; [cbn; auto|].
  destruct hands as [|h hands]; [cbn; auto|].
  unfold process_frame.
  exact (cooling_hands (h :: hands) (self, None) self0 Hc Ht Hcd).
Qed.

Lemma cooling_run cs : forall self0 self,
  Forall (clocks_within_cooldown self0) cs ->
  last_gesture_time self = last_gesture_time self0 ->
  cooldown self = cooldown self0 ->
  let self' := fst (run self cs) in
  last_gesture_time self' = last_gesture_time self0
  /\ cooldown self' = cooldown self0
  /\ calls self' = calls self.
Proof.
  induction cs as [|c cs IH]; intros self0 self H Ht Hcd; cbv zeta.
  - cbn. auto.
  - inversion H as [|? ? Hc Hrest]; subst. rewrite run_cons_fst.
    destruct (cooling_frame self0 self c Hc Ht Hcd) as (H1 & H2 & H3).
    destruct (IH self0 _ Hrest H1 H2) as (H4 & H5 & H6).
    repeat split; congruence.
Qed.

End FrameLoop.

Example after_thumbs_up_dispatched :
  calls after_thumbs_up = [("thumbs_up", "increase_font")]
  /\ last_triggered_gesture after_thumbs_up = Some "thumbs_up"
  /\ last_gesture_time after_thumbs_up = 10.4%float.
Proof. repeat split; vm_compute; reflexivity. Qed.

Lemma Forall_repeat_None n : Forall (fun o : option string => o = None) (repeat None n).
Proof. apply Forall_forall. intros o Ho. apply repeat_spec in Ho. exact Ho. Qed.

(** C5. A frame without a hand empties the buffer and forgets the
    last-dispatched label; the next four frames with a hand, whatever they
    show, stabilise nothing, so five fresh frames are needed. *)
Theorem C5_hand_loss_reset (self : GestureController) (hands : list (Landmarks * float)) :
  well_formed_hands hands ->
  List.length hands < 5 ->
  let lost := process_frame self no_hand in
  let r := run (fst lost) (map hand_frame hands) in
  gesture_history (fst lost) = []
  /\ List.length (gesture_history (fst lost)) = 0
  /\ last_triggered_gesture (fst lost) = None
  /\ Forall (fun o => o = None) (snd r)
  /\ List.length (gesture_history (fst r)) = List.length hands.
Proof.
  intros _ Hlen. cbv zeta.
  change (gesture_history (fst (process_frame self no_hand))) with (@nil (option string)).
  change (last_triggered_gesture (fst (process_frame self no_hand))) with (@None string).
  rewrite cold_run by (cbn; lia). cbn [fst snd gesture_history set_history].
  repeat split.
  - apply Forall_repeat_None.
  - cbn. rewrite length_map. reflexivity.
Qed.

Lemma C5_witness :
  let lost := process_frame after_thumbs_up no_hand in
  let r := run (fst lost)
             (map hand_frame (seen_at thumbs_up_hand [11.0; 11.1; 11.2; 11.3]%float)) in
  gesture_history (fst lost) = []
  /\ List.length (gesture_history (fst lost)) = 0
  /\ last_triggered_gesture (fst lost) = None
  /\ Forall (fun o => o = None) (snd r)
  /\ List.length (gesture_history (fst r)) = 4.
Proof.
  apply (C5_hand_loss_reset after_thumbs_up
           (seen_at thumbs_up_hand [11.0; 11.1; 11.2; 11.3]%float)).
  - repeat constructor.
  - cbn. lia.
Defined.

(** The fifth fresh frame is the first that can stabilise again. *)
Example fifth_frame_restabilises :
  snd (run (fst (process_frame after_thumbs_up no_hand))
         (map hand_frame (seen_at thumbs_up_hand [11.0; 11.1; 11.2; 11.3; 11.4]%float)))
  = [None; None; None; None; Some "thumbs_up"].
Proof. vm_compute. reflexivity. Qed.

(** C10. A frame without a hand forgets the last-dispatched label and empties
    the buffer but keeps the timestamp of the last dispatch; a gesture that
    stabilises afterwards, within the cooldown of that dispatch, reaches no
    callback. *)
Theorem C10_hand_loss_keeps_timestamp :
  (forall self,
      let self' := fst (process_frame self no_hand) in
      last_gesture_time self' = last_gesture_time self
      /\ last_triggered_gesture self' = None
      /\ gesture_history self' = []
      /\ cooldown self' = cooldown self
      /\ calls self' = calls self)
  /\ (forall self hands,
         well_formed_hands hands ->
         Forall (fun h => within_cooldown self (snd h) = true) hands ->
         let r := run self (no_hand :: map hand_frame hands) in
         calls (fst r) = calls self
         /\ last_gesture_time (fst r) = last_gesture_time self).
Proof.
  split.
  - intros self. cbn. auto.
  - intros self hands _ Hc. cbv zeta.
    destruct (cooling_run (no_hand :: map hand_frame hands) self self) as (H1 & _ & H3);
      try reflexivity; [|auto].
    constructor; [constructor|].
    apply Forall_forall. intros c Hin. apply in_map_iff in Hin.
    destruct Hin as (h & <- & Hin). cbn. constructor; [|constructor].
    rewrite Forall_forall in Hc. apply Hc. exact Hin.
Qed.

Lemma C10_witness :
  let r := run after_thumbs_up
             (no_hand :: map hand_frame
                (seen_at peace_hand [10.5; 10.6; 10.7; 10.8; 10.9]%float)) in
  snd r = [None; None; None; None; None; Some "peace"]
  /\ calls (fst r) = [("thumbs_up", "increase_font")]
  /\ last_gesture_time (fst r) = 10.4%float.
Proof.
  split; [vm_compute; reflexivity|].
  destruct C10_hand_loss_keeps_timestamp as (_ & H).
  apply (H after_thumbs_up (seen_at peace_hand [10.5; 10.6; 10.7; 10.8; 10.9]%float)).
  - repeat constructor.
  - repeat constructor.
Defined.

(** C1, as stated, fails: thumbs-up is dispatched, eight frames with the hand
    present stabilise to none, thumbs-up stabilises again long after the
    cooldown, and the callback has still been invoked once only. *)
Lemma C1_counterexample :
  let quiet := run after_thumbs_up_held (map hand_frame unstable_frames) in
  let again := process_frame (fst quiet) (hand_frame (thumbs_up_hand, 26%float)) in
  calls after_thumbs_up_held = [("thumbs_up", "increase_font")]
  /\ last_triggered_gesture after_thumbs_up_held = Some "thumbs_up"
  /\ snd quiet = [None; None; None; None; None; None; None; None]
  /\ snd again = Some "thumbs_up"
  /\ within_cooldown (fst quiet) 26 = false
  /\ calls (fst again) = [("thumbs_up", "increase_font")]
  /\ calls (fst again)
     <> [("thumbs_up", "increase_font"); ("thumbs_up", "increase_font")].
Proof.
  cbv zeta. repeat split; try (vm_compute; reflexivity).
  vm_compute. discriminate.
Qed.

(** C1, amended.  After the gate dispatched L, frames with the hand present
    whose stable label is none leave the last-dispatched label in place: when
    L stabilises again, cooldown elapsed or not, the callback is not invoked a
    second time.  A frame without a hand does clear the memory: after it the
    same sequence dispatches L again. *)
Theorem C1_none_keeps_last_dispatched :
  (forall self L quiet h,
      last_triggered_gesture self = Some L ->
      well_formed_hands (quiet ++ [h]) ->
      quiet <> [] ->
      let r1 := run self (map hand_frame quiet) in
      Forall (fun o => o = None) (snd r1) ->
      let r2 := process_frame (fst r1) (hand_frame h) in
      snd r2 = Some L ->
      within_cooldown (fst r1) (snd h) = false ->
      calls (fst r2) = calls self
      /\ last_triggered_gesture (fst r2) = Some L)
  /\ (forall self L action quiet h,
         on_gesture_callback self = true ->
         dict_get GESTURE_ACTIONS L = Some action ->
         well_formed_hands (quiet ++ [h]) ->
         let r1 := run self (no_hand :: map hand_frame quiet) in
         Forall (fun o => o = None) (snd r1) ->
         let r2 := process_frame (fst r1) (hand_frame h) in
         snd r2 = Some L ->
         within_cooldown (fst r1) (snd h) = false ->
         calls (fst r2) = calls self ++ [(L, action)]
         /\ last_triggered_gesture (fst r2) = Some L).
Proof.
  split.
  - intros self L quiet h HL _ _. cbv zeta. intros Hquiet Hout _.
    pose proof (quiet_run quiet self Hquiet) as Hg.
    set (s1 := fst (run self (map hand_frame quiet))) in *.
    rewrite process_hand_frame in *. cbv zeta in *.
    pose proof (gate_state__get_stable_gesture s1 (detect_gesture (fst h))) as Hg'.
    destruct (_get_stable_gesture s1 (detect_gesture (fst h))) as [s2 o].
    cbn [fst snd] in *. destruct o as [g|]; [|discriminate].
    cbn [snd] in Hout. injection Hout as ->. cbn [fst].
    gate_fields Hg. gate_fields Hg'.
    rewrite _trigger_gesture_same by congruence.
    split; congruence.
  - intros self L action quiet h Hcb Hact _. cbv zeta.
    rewrite run_cons_snd, run_cons_fst.
    set (s0 := fst (process_frame self no_hand)).
    intros Hquiet Hout Hcool.
    inversion Hquiet as [|? ? _ Hquiet']; subst.
    pose proof (quiet_run quiet s0 Hquiet') as Hg.
    set (s1 := fst (run s0 (map hand_frame quiet))) in *.
    rewrite process_hand_frame in *. cbv zeta in *.
    pose proof (gate_state__get_stable_gesture s1 (detect_gesture (fst h))) as Hg'.
    destruct (_get_stable_gesture s1 (detect_gesture (fst h))) as [s2 o].
    cbn [fst snd] in *. destruct o as [g|]; [|discriminate].
    cbn [snd] in Hout. injection Hout as ->. cbn [fst].
    gate_fields Hg. gate_fields Hg'.
    change (on_gesture_callback s0) with (on_gesture_callback self) in *.
    change (last_triggered_gesture s0) with (@None string) in *.
    change (calls s0) with (calls self) in *.
    rewrite _trigger_gesture_dispatch.
    + rewrite Hact. cbv zeta.
      assert (on_gesture_callback s2 = true) as -> by congruence.
      cbn. split; congruence.
    + unfold within_cooldown in *. rewrite Htime0, Hcd0. exact Hcool.
    + congruence.
Qed.

Lemma C1_witness :
  (let r1 := run after_thumbs_up_held (map hand_frame unstable_frames) in
   let r2 := process_frame (fst r1) (hand_frame (thumbs_up_hand, 26%float)) in
   calls (fst r2) = calls after_thumbs_up_held
   /\ last_triggered_gesture (fst r2) = Some "thumbs_up")
  /\ (let r1 := run after_thumbs_up_held
                  (no_hand :: map hand_frame (seen_at thumbs_up_hand [21; 22; 23; 24]%float)) in
      let r2 := process_frame (fst r1) (hand_frame (thumbs_up_hand, 25%float)) in
      calls (fst r2) = calls after_thumbs_up_held ++ [("thumbs_up", "increase_font")]
      /\ last_triggered_gesture (fst r2) = Some "thumbs_up").
Proof.
  destruct C1_none_keeps_last_dispatched as (HA & HB).
  split.
  - apply (HA after_thumbs_up_held "thumbs_up" unstable_frames (thumbs_up_hand, 26%float)).
    + reflexivity.
    + repeat constructor.
    + discriminate.
    + vm_compute. repeat constructor.
    + vm_compute. reflexivity.
    + vm_compute. reflexivity.
  - apply (HB after_thumbs_up_held "thumbs_up" "increase_font"
             (seen_at thumbs_up_hand [21; 22; 23; 24]%float) (thumbs_up_hand, 25%float)).
    + reflexivity.
    + reflexivity.
    + repeat constructor.
    + vm_compute. repeat constructor.
    + vm_compute. reflexivity.
    + vm_compute. reflexivity.
Defined.

(** * Further properties of the pipeline *)

Section Vocabulary.

Lemma vocabulary_mapped (g : string) :
  In g VOCABULARY ->
  exists action, dict_get GESTURE_ACTIONS g = Some action /\ str_truthy g = true.
Proof.
  unfold VOCABULARY. cbn [In].
  intros [<- | [<- | [<- | [<- | [<- | [<- | []]]]]]]; eexists; split; reflexivity.
Qed.

Lemma detect_gesture_in_vocabulary (landmarks : Landmarks) (g : string) :
  detect_gesture landmarks = Some g -> In g VOCABULARY.
Proof.
  unfold detect_gesture, VOCABULARY.
  repeat match goal with
         | |- context [if ?b then _ else _] => destruct b
         end; intros [= <-]; cbn; tauto.
Qed.

End Vocabulary.

(** X1. Whatever the landmarks, the classifier answers none or one of the six
    labels of the vocabulary, and each of these has an action in
    [GESTURE_ACTIONS]: no recognised gesture falls through the lookup of the
    gate. *)
Theorem X1_detect_gesture_vocabulary (landmarks : Landmarks) :
  well_formed landmarks ->
  detect_gesture landmarks = None
  \/ exists g action,
       detect_gesture landmarks = Some g
       /\ In g VOCABULARY
       /\ dict_get GESTURE_ACTIONS g = Some action.
Proof.
  intros _. destruct (detect_gesture landmarks) as [g|] eqn:E; [right | left; reflexivity].
  pose proof (detect_gesture_in_vocabulary _ _ E) as Hv.
  destruct (vocabulary_mapped _ Hv) as (action & Ha & _).
  exists g, action. auto.
Qed.

Lemma X1_witness :
  detect_gesture peace_hand = None
  \/ exists g action,
       detect_gesture peace_hand = Some g
       /\ In g VOCABULARY
       /\ dict_get GESTURE_ACTIONS g = Some action.
Proof. apply (X1_detect_gesture_vocabulary peace_hand). reflexivity. Defined.

(** X2. As soon as the index finger is extended the thumb plays no part:
    the answer is point_up exactly when the three other fingers are curled,
    peace exactly when the middle finger alone joins the index, and never a
    thumb gesture or a fist. *)
Theorem X2_index_extended (landmarks : Landmarks) :
  well_formed landmarks ->
  index (_get_finger_state landmarks) = true ->
  let fingers := _get_finger_state landmarks in
  (detect_gesture landmarks = Some "point_up"
   <-> middle fingers = false /\ ring fingers = false /\ pinky fingers = false)
  /\ (detect_gesture landmarks = Some "peace"
      <-> middle fingers = true /\ ring fingers = false /\ pinky fingers = false)
  /\ detect_gesture landmarks <> Some "thumbs_up"
  /\ detect_gesture landmarks <> Some "thumbs_down"
  /\ detect_gesture landmarks <> Some "fist".
Proof.
  intros _ Hi. cbv zeta. unfold detect_gesture.
  unfold _is_thumb_up, _is_thumb_down, _is_pointing_up, _is_peace_sign,
    _is_open_palm, _is_fist, all_curled.
  rewrite Hi.
  destruct (middle (_get_finger_state landmarks)),
    (ring (_get_finger_state landmarks)),
    (pinky (_get_finger_state landmarks)),
    (_get_thumb_direction landmarks); cbn;
    repeat split; intros; try congruence; try tauto;
    repeat match goal with H : _ /\ _ |- _ => destruct H end; congruence.
Qed.

Lemma X2_witness :
  (detect_gesture peace_hand = Some "peace"
   <-> middle (_get_finger_state peace_hand) = true
       /\ ring (_get_finger_state peace_hand) = false
       /\ pinky (_get_finger_state peace_hand) = false)
  /\ detect_gesture peace_hand <> Some "fist".
Proof.
  destruct (X2_index_extended peace_hand) as (_ & H & _ & _ & Hf);
    [reflexivity | reflexivity |].
  split; [exact H | exact Hf].
Defined.

(** X3. With the four fingers extended the answer is open_palm when the thumb
    points up or to the side and none otherwise: an open hand with the thumb
    folded in or pointing down is not recognised. *)
Theorem X3_open_palm_needs_thumb_out (landmarks : Landmarks) :
  well_formed landmarks ->
  let fingers := _get_finger_state landmarks in
  index fingers = true -> middle fingers = true ->
  ring fingers = true -> pinky fingers = true ->
  detect_gesture landmarks =
    match _get_thumb_direction landmarks with
    | up | side => Some "open_palm"
    | down | curled => None
    end.
Proof.
  intros _. cbv zeta. intros Hi Hm Hr Hp. unfold detect_gesture.
  unfold _is_thumb_up, _is_thumb_down, _is_pointing_up, _is_peace_sign,
    _is_open_palm, _is_fist, all_curled.
  rewrite Hi, Hm, Hr, Hp.
  destruct (_get_thumb_direction landmarks); reflexivity.
Qed.

Lemma X3_witness :
  detect_gesture open_hand_thumb_out = Some "open_palm"
  /\ detect_gesture open_hand_thumb_in = None.
Proof.
  split.
  - apply (X3_open_palm_needs_thumb_out open_hand_thumb_out); reflexivity.
  - apply (X3_open_palm_needs_thumb_out open_hand_thumb_in); reflexivity.
Defined.

Section RunInvariants.

Lemma process_hand_eq acc h :
  process_hand acc h =
    let r := _get_stable_gesture (fst acc) (detect_gesture (fst h)) in
    match snd r with
    | Some g => (_trigger_gesture (fst r) g (snd h), Some g)
    | None => (fst r, None)
    end.
Proof.
  unfold process_hand.
  destruct (_get_stable_gesture (fst acc) (detect_gesture (fst h))) as [s o] eqn:E.
  cbv zeta. cbn [fst snd].
  destruct o as [g|]; [|reflexivity].
  assert (Ho : stable_of (gesture_history s) = Some g).
  { pose proof (_get_stable_gesture_result (fst acc) (detect_gesture (fst h))) as H.
    rewrite E in H. cbn [fst snd] in H. congruence. }
  cbn [truthy]. rewrite (stable_of_truthy _ _ Ho). reflexivity.
Qed.

Lemma process_frame_no_hand self : process_frame self no_hand = (hand_lost self, None).
Proof. reflexivity. Qed.

(** The gate either leaves the controller as it is or dispatches. *)
Lemma _trigger_gesture_cases self g t :
  _trigger_gesture self g t = self
  \/ (within_cooldown self t = false
      /\ last_triggered_gesture self <> Some g
      /\ _trigger_gesture self g t =
           let self' := set_last_time (set_last_triggered self (Some g)) t in
           match dict_get GESTURE_ACTIONS g with
           | Some action =>
               if on_gesture_callback self then invoke self' g action else self'
           | None => self'
           end).
Proof.
  destruct (within_cooldown self t) eqn:Hc.
  - left. apply _trigger_gesture_cooling. exact Hc.
  - destruct (label_eqb (last_triggered_gesture self) (Some g)) eqn:E.
    + left. apply _trigger_gesture_same. apply label_eqb_eq. exact E.
    + apply label_eqb_neq in E. right. split; [reflexivity|]. split; [exact E|].
      apply _trigger_gesture_dispatch; assumption.
Qed.

Lemma _trigger_gesture_history self g t :
  gesture_history (_trigger_gesture self g t) = gesture_history self.
Proof.
  destruct (_trigger_gesture_cases self g t) as [-> | (_ & _ & ->)]; [reflexivity|].
  cbv zeta. destruct (dict_get GESTURE_ACTIONS g); [|reflexivity].
  destruct (on_gesture_callback self); reflexivity.
Qed.

Lemma stable_of_In h g : stable_of h = Some g -> In (Some g) h.
Proof.
  unfold stable_of. destruct (List.length h <? 5); [discriminate|].
  destruct (most_common h) as [[m c]|] eqn:Hmc; [|discriminate].
  destruct (reaches_threshold c (List.length h)); [|discriminate].
  intros [= <-]. destruct (most_common_max _ _ _ Hmc) as (_ & -> & Hpos & _).
  apply occurrences_pos. exact Hpos.
Qed.

Lemma deque_append_In {A} (maxlen : nat) (d : list A) (v a : A) :
  In a (deque_append maxlen d v) -> In a d \/ a = v.
Proof.
  unfold deque_append. intros H.
  assert (H' : In a (d ++ [v])).
  { destruct (maxlen <? List.length (d ++ [v])); [|exact H].
    destruct (d ++ [v]); [destruct H | right; exact H]. }
  apply in_app_iff in H'. destruct H' as [H' | [<- | []]]; auto.
Qed.

(** A property kept by the stabiliser on raw labels of the classifier and by
    the gate on stable labels is kept by the loop over the hands of a frame. *)
Lemma process_hands_preserve (P : GestureController -> Prop) :
  (forall s landmarks, P s -> P (fst (_get_stable_gesture s (detect_gesture landmarks)))) ->
  (forall s g t, P s -> stable_of (gesture_history s) = Some g -> P (_trigger_gesture s g t)) ->
  forall hands acc, P (fst acc) -> P (fst (fold_left process_hand hands acc)).
Proof.
  intros Hstab Hgate.
  induction hands as [|h hands IH]; intros acc HP; [exact HP|].
  cbn [fold_left]. apply IH. rewrite process_hand_eq. cbv zeta.
  pose proof (Hstab _ (fst h) HP) as HP'.
  destruct (snd (_get_stable_gesture (fst acc) (detect_gesture (fst h)))) as [g|] eqn:E;
    cbn [fst]; [|exact HP'].
  apply Hgate; [exact HP'|]. rewrite <- E. symmetry. apply _get_stable_gesture_result.
Qed.

(** If the reset on hand loss keeps it too, the whole loop keeps it. *)
Lemma run_preserves (P : GestureController -> Prop) :
  (forall s landmarks, P s -> P (fst (_get_stable_gesture s (detect_gesture landmarks)))) ->
  (forall s g t, P s -> stable_of (gesture_history s) = Some g -> P (_trigger_gesture s g t)) ->
  (forall s, P s -> P (hand_lost s)) ->
  forall cs s, P s -> P (fst (run s cs)).
Proof.
  intros Hstab Hgate Hlost.
  induction cs as [|c cs IH]; intros s HP; [exact HP|].
  rewrite run_cons_fst. apply IH.
  destruct c as [|hands]; [exact HP|].
  destruct hands as [|h hands]; [apply Hlost, HP|].
  unfold process_frame. apply (process_hands_preserve P Hstab Hgate). exact HP.
Qed.

(** The same without the reset, for loops in which the hand never leaves. *)
Lemma run_preserves_present (P : GestureController -> Prop) :
  (forall s landmarks, P s -> P (fst (_get_stable_gesture s (detect_gesture landmarks)))) ->
  (forall s g t, P s -> stable_of (gesture_history s) = Some g -> P (_trigger_gesture s g t)) ->
  forall cs s, Forall (fun c => c <> no_hand) cs -> P s -> P (fst (run s cs)).
Proof.
  intros Hstab Hgate.
  induction cs as [|c cs IH]; intros s Hpresent HP; [exact HP|].
  inversion Hpresent as [|? ? Hc Hrest]; subst.
  rewrite run_cons_fst. apply IH; [exact Hrest|].
  destruct c as [|hands]; [exact HP|].
  destruct hands as [|h hands]; [exfalso; apply Hc; reflexivity|].
  unfold process_frame. apply (process_hands_preserve P Hstab Hgate). exact HP.
Qed.

Lemma history_in_vocabulary_stable s landmarks :
  history_in_vocabulary s ->
  history_in_vocabulary (fst (_get_stable_gesture s (detect_gesture landmarks))).
Proof.
  unfold history_in_vocabulary. intros H g Hin.
  rewrite _get_stable_gesture_history in Hin.
  apply deque_append_In in Hin. destruct Hin as [Hin | Hin]; [auto|].
  symmetry in Hin. apply detect_gesture_in_vocabulary in Hin. exact Hin.
Qed.

End RunInvariants.

(** X4. The history buffer never holds more than ten raw labels, whatever the
    camera and the tracker deliver. *)
Theorem X4_history_bounded (self : GestureController) (cs : list Capture) :
  List.length (gesture_history self) <= 10 ->
  List.length (gesture_history (fst (run self cs))) <= 10.
Proof.
  revert cs self.
  apply (run_preserves (fun s => List.length (gesture_history s) <= 10)).
  - intros s landmarks H. apply _get_stable_gesture_bounded. exact H.
  - intros s g t H _. rewrite _trigger_gesture_history. exact H.
  - intros s _. cbn. lia.
Qed.

Lemma X4_witness :
  List.length (gesture_history
     (fst (run (init true)
             (map hand_frame (seen_at thumbs_up_hand
                [1; 2; 3; 4; 5; 6; 7; 8; 9; 10; 11; 12; 13]%float))))) <= 10.
Proof. apply X4_history_bounded. cbn. lia. Defined.

Example thirteen_frames_fill_the_buffer :
  List.length (gesture_history
     (fst (run (init true)
             (map hand_frame (seen_at thumbs_up_hand
                [1; 2; 3; 4; 5; 6; 7; 8; 9; 10; 11; 12; 13]%float))))) = 10.
Proof. vm_compute. reflexivity. Qed.

Section CallbackLog.

Lemma _trigger_gesture_calls self g t :
  calls (_trigger_gesture self g t) = calls self
  \/ exists action,
       dict_get GESTURE_ACTIONS g = Some action
       /\ last_triggered_gesture self <> Some g
       /\ within_cooldown self t = false
       /\ on_gesture_callback self = true
       /\ calls (_trigger_gesture self g t) = calls self ++ [(g, action)].
Proof.
  destruct (_trigger_gesture_cases self g t) as [-> | (Hc & Hneq & ->)]; [left; reflexivity|].
  cbv zeta. destruct (dict_get GESTURE_ACTIONS g) as [action|]; [|left; reflexivity].
  destruct (on_gesture_callback self) eqn:Hcb; [|left; reflexivity].
  right. exists action. repeat split; try assumption.
Qed.

Lemma process_hand_calls acc h :
  exists extra,
    calls (fst (process_hand acc h)) = calls (fst acc) ++ extra
    /\ List.length extra <= 1.
Proof.
  rewrite process_hand_eq. cbv zeta.
  destruct (snd (_get_stable_gesture (fst acc) (detect_gesture (fst h)))) as [g|]; cbn [fst].
  - destruct (_trigger_gesture_calls
                (fst (_get_stable_gesture (fst acc) (detect_gesture (fst h)))) g (snd h))
      as [-> | (action & _ & _ & _ & _ & ->)].
    + exists []. rewrite app_nil_r. split; [reflexivity | cbn; lia].
    + exists [(g, action)]. split; [reflexivity | cbn; lia].
  - exists []. rewrite app_nil_r. split; [reflexivity | cbn; lia].
Qed.

Lemma process_hands_calls hands : forall acc,
  exists extra,
    calls (fst (fold_left process_hand hands acc)) = calls (fst acc) ++ extra
    /\ List.length extra <= List.length hands.
Proof.
  induction hands as [|h hands IH]; intros acc; cbn [fold_left List.length].
  - exists []. rewrite app_nil_r. split; [reflexivity | cbn; lia].
  - destruct (process_hand_calls acc h) as (e1 & H1 & L1).
    destruct (IH (process_hand acc h)) as (e2 & H2 & L2).
    exists (e1 ++ e2). rewrite H2, H1, <- app_assoc. split; [reflexivity|].
    rewrite length_app. lia.
Qed.

Lemma adjacent_distinct_snoc l a :
  adjacent_distinct l -> last_label l <> Some a -> adjacent_distinct (l ++ [a]).
Proof.
  induction l as [|b l IH]; intros Hd Hlast; [exact I|].
  destruct l as [|c l].
  - cbn. split; [|exact I]. intros ->. apply Hlast. reflexivity.
  - destruct Hd as [Hbc Hd]. split; [exact Hbc|].
    apply IH; [exact Hd|].
    intros H. apply Hlast. unfold last_label in *. cbn [rev] in *.
    destruct (rev l ++ [c]) eqn:E; [destruct (rev l); discriminate|].
    cbn. exact H.
Qed.

Lemma last_label_snoc l a : last_label (l ++ [a]) = Some a.
Proof. unfold last_label. rewrite rev_app_distr. reflexivity. Qed.

End CallbackLog.

(** X5. The loop never rewrites the record of past callbacks and invokes the
    callback at most once for each hand the tracker reports. *)
Theorem X5_calls_only_grow (self : GestureController) (cs : list Capture) :
  exists extra,
    calls (fst (run self cs)) = calls self ++ extra
    /\ List.length extra <= hands_seen cs.
Proof.
  revert self. induction cs as [|c cs IH]; intros self.
  - exists []. cbn. rewrite app_nil_r. split; [reflexivity | lia].
  - rewrite run_cons_fst.
    destruct (IH (fst (process_frame self c))) as (e2 & H2 & L2).
    assert (H1 : exists e1, calls (fst (process_frame self c)) = calls self ++ e1
                            /\ List.length e1 + hands_seen cs <= hands_seen (c :: cs)).
    { destruct c as [|hands].
      - exists []. cbn. rewrite app_nil_r. split; [reflexivity | lia].
      - destruct hands as [|h hands].
        + exists []. cbn. rewrite app_nil_r. split; [reflexivity | lia].
        + destruct (process_hands_calls (h :: hands) (self, None)) as (e1 & H1 & L1).
          exists e1. split; [exact H1|]. cbn [hands_seen]. lia. }
    destruct H1 as (e1 & H1 & L1).
    exists (e1 ++ e2). rewrite H2, H1, <- app_assoc. split; [reflexivity|].
    rewrite length_app. lia.
Qed.

(** X6. From a fresh controller only the six gestures of the classifier reach
    the callback, each with the action [GESTURE_ACTIONS] gives it: the swipe
    entries of the table are never dispatched. *)
Theorem X6_only_vocabulary_dispatched (callback : bool) (cs : list Capture) :
  Forall well_formed_capture cs ->
  forall g action,
    In (g, action) (calls (fst (run (init callback) cs))) ->
    In g VOCABULARY /\ dict_get GESTURE_ACTIONS g = Some action.
Proof.
  intros _.
  apply (run_preserves
           (fun s => history_in_vocabulary s
                     /\ forall g action, In (g, action) (calls s) ->
                          In g VOCABULARY /\ dict_get GESTURE_ACTIONS g = Some action)).
  - intros s landmarks (Hh & Hc). split; [|exact Hc].
    apply history_in_vocabulary_stable. exact Hh.
  - intros s g t (Hh & Hc) Hs. split.
    + unfold history_in_vocabulary. rewrite _trigger_gesture_history. exact Hh.
    + destruct (_trigger_gesture_calls s g t) as [-> | (a & Ha & _ & _ & _ & ->)]; [exact Hc|].
      intros g' a' Hin. apply in_app_iff in Hin. destruct Hin as [Hin | [[= <- <-] | []]].
      * exact (Hc _ _ Hin).
      * split; [|exact Ha]. apply Hh. apply stable_of_In. exact Hs.
  - intros s (_ & Hc). split; [intros g []|exact Hc].
  - split; [intros g [] | intros g a []].
Qed.

Lemma X6_witness :
  In "thumbs_up" VOCABULARY
  /\ dict_get GESTURE_ACTIONS "thumbs_up" = Some "increase_font".
Proof.
  apply (X6_only_vocabulary_dispatched true
           (map hand_frame (seen_at thumbs_up_hand [10.0; 10.1; 10.2; 10.3; 10.4]%float))).
  - repeat constructor.
  - vm_compute. left. reflexivity.
Defined.

(** X7. As long as the hand stays in view a fresh controller never invokes the
    callback twice in a row for the same gesture. *)
Theorem X7_no_repeat_while_present (cs : list Capture) :
  Forall well_formed_capture cs ->
  Forall (fun c => c <> no_hand) cs ->
  adjacent_distinct (map fst (calls (fst (run (init true) cs)))).
Proof.
  intros _ Hpresent.
  pose (P := fun s =>
     on_gesture_callback s = true
     /\ history_in_vocabulary s
     /\ last_triggered_gesture s = last_label (map fst (calls s))
     /\ adjacent_distinct (map fst (calls s))).
  assert (H : P (fst (run (init true) cs))).
  { apply (run_preserves_present P); [| |exact Hpresent|].
    - intros s landmarks (Hcb & Hh & Hl & Hd). repeat split; try assumption.
      apply history_in_vocabulary_stable. exact Hh.
    - intros s g t (Hcb & Hh & Hl & Hd) Hs.
      destruct (_trigger_gesture_cases s g t) as [-> | (_ & Hneq & ->)];
        [repeat split; assumption|].
      cbv zeta.
      destruct (vocabulary_mapped g) as (a & -> & _);
        [apply Hh, stable_of_In, Hs|].
      rewrite Hcb. unfold P. cbn. rewrite map_app. cbn [map fst].
      rewrite last_label_snoc. repeat split; try assumption.
      apply adjacent_distinct_snoc; [exact Hd|]. rewrite <- Hl. exact Hneq.
    - repeat split. intros g []. }
  apply H.
Qed.

Lemma X7_witness :
  adjacent_distinct
    (map fst (calls (fst (run (init true)
       (map hand_frame
          (seen_at thumbs_up_hand [10; 11; 12; 13; 14; 15; 16]%float
           ++ seen_at peace_hand [17; 18; 19; 20; 21; 22; 23; 24; 25; 26]%float
           ++ seen_at thumbs_up_hand [27; 28; 29; 30; 31; 32; 33; 34; 35; 36]%float)))))).
Proof.
  apply X7_no_repeat_while_present.
  - repeat constructor.
  - repeat (constructor; [discriminate|]). constructor.
Defined.

Example three_gestures_three_calls :
  calls (fst (run (init true)
       (map hand_frame
          (seen_at thumbs_up_hand [10; 11; 12; 13; 14; 15; 16]%float
           ++ seen_at peace_hand [17; 18; 19; 20; 21; 22; 23; 24; 25; 26]%float
           ++ seen_at thumbs_up_hand [27; 28; 29; 30; 31; 32; 33; 34; 35; 36]%float))))
  = [ ("thumbs_up", "increase_font"); ("peace", "previous_page");
      ("thumbs_up", "increase_font") ].
Proof. vm_compute. reflexivity. Qed.

(** X8. While the hand stays in view and every stable label is the same
    gesture (unstable frames in between allowed), the callback is invoked at
    most once, however long the gesture is held and however much time passes. *)
Theorem X8_held_gesture_fires_once (self : GestureController) (g : string)
    (hands : list (Landmarks * float)) :
  well_formed_hands hands ->
  Forall (fun o => o = None \/ o = Some g) (snd (run self (map hand_frame hands))) ->
  calls (fst (run self (map hand_frame hands))) = calls self
  \/ exists action,
       dict_get GESTURE_ACTIONS g = Some action
       /\ calls (fst (run self (map hand_frame hands))) = calls self ++ [(g, action)].
Proof.
  intros _.
  assert (Hgen : forall hs s, fired_at_most_once self g s ->
            Forall (fun o => o = None \/ o = Some g) (snd (run s (map hand_frame hs))) ->
            fired_at_most_once self g (fst (run s (map hand_frame hs)))).
  { induction hs as [|h hs IH]; intros s HJ Hout; [exact HJ|].
    rewrite map_hand_frame_cons in *. rewrite run_cons_snd in Hout. rewrite run_cons_fst.
    inversion Hout as [|? ? Hh Hrest]; subst.
    apply (IH (fst (process_frame s (hand_frame h)))); [|exact Hrest].
    clear IH Hrest Hout. unfold fired_at_most_once in *. destruct Hh as [Hh | Hh].
    - pose proof (quiet_frame s h Hh) as Hq.
      destruct HJ as [HJ | (Hl & Hc)]; [left; exact (eq_trans Hq HJ)|].
      right. gate_fields Hq. split; [exact (eq_trans Hlast Hl)|].
      destruct Hc as [Hc | (a & Ha & Hc)];
        [left | right; exists a; split; [exact Ha|]]; exact (eq_trans Hcalls Hc).
    - change (snd (process_hand (s, None) h)) with (snd (process_frame s (hand_frame h))) in Hh.
      rewrite process_hand_frame in *. cbv zeta in *.
      pose proof (gate_state__get_stable_gesture s (detect_gesture (fst h))) as Hg.
      destruct (_get_stable_gesture s (detect_gesture (fst h))) as [s' o].
      cbn [fst snd] in *. destruct o as [g'|]; [|discriminate].
      cbn [snd] in Hh. injection Hh as ->. cbn [fst].
      destruct (_trigger_gesture_cases s' g (snd h)) as [-> | (_ & Hneq & ->)].
      + destruct HJ as [HJ | (Hl & Hc)]; [left; exact (eq_trans Hg HJ)|].
        right. gate_fields Hg. split; [exact (eq_trans Hlast Hl)|].
        destruct Hc as [Hc | (a & Ha & Hc)];
          [left | right; exists a; split; [exact Ha|]]; exact (eq_trans Hcalls Hc).
      + gate_fields Hg.
        destruct HJ as [HJ | (Hl & Hc)]; [|exfalso; apply Hneq; congruence].
        gate_fields HJ. right. cbv zeta.
        destruct (dict_get GESTURE_ACTIONS g) as [a|];
          [destruct (on_gesture_callback s')|]; cbn.
        * split; [reflexivity|]. right. exists a. split; [reflexivity | congruence].
        * split; [reflexivity|]. left. congruence.
        * split; [reflexivity|]. left. congruence. }
  intros Hout.
  destruct (Hgen hands self (or_introl eq_refl) Hout) as [HJ | (_ & Hc)].
  - left. gate_fields HJ. assumption.
  - exact Hc.
Qed.

Lemma X8_witness :
  calls (fst (run (init true)
     (map hand_frame (seen_at fist_hand
        [10; 11; 12; 13; 14; 15; 16; 17; 18; 19; 20; 21; 22; 23; 24]%float))))
  = [("fist", "stop_tts")].
Proof.
  destruct (X8_held_gesture_fires_once (init true) "fist"
              (seen_at fist_hand
                 [10; 11; 12; 13; 14; 15; 16; 17; 18; 19; 20; 21; 22; 23; 24]%float))
    as [H | (action & Ha & H)].
  - repeat constructor.
  - vm_compute. repeat (constructor; [tauto|]). constructor.
  - exfalso. revert H. vm_compute. discriminate.
  - injection Ha as <-. exact H.
Defined.

Section Debounce.

Lemma run_app_fst a : forall s b,
  fst (run s (a ++ b)) = fst (run (fst (run s a)) b).
Proof.
  induction a as [|c a IH]; intros s b; [reflexivity|].
  cbn [app]. rewrite !run_cons_fst. apply IH.
Qed.

Lemma run_app_snd a : forall s b,
  snd (run s (a ++ b)) = snd (run s a) ++ snd (run (fst (run s a)) b).
Proof.
  induction a as [|c a IH]; intros s b; [reflexivity|].
  cbn [app]. rewrite !run_cons_snd, run_cons_fst, IH. reflexivity.
Qed.

Lemma occurrences_repeat g n : occurrences g (repeat g n) = n.
Proof.
  induction n as [|n IH]; [reflexivity|].
  cbn. rewrite label_eqb_refl, IH. reflexivity.
Qed.

Lemma occurrences_tl g l : occurrences g l <= S (occurrences g (tl l)).
Proof. destruct l as [|a l]; cbn; [lia|]. destruct (label_eqb a g); lia. Qed.

Lemma deque_append_full {A} (d : list A) (v : A) :
  List.length d = 10 -> deque_append HISTORY_MAXLEN d v = tl (d ++ [v]).
Proof.
  intros H. unfold deque_append, HISTORY_MAXLEN.
  assert ((10 <? List.length (d ++ [v])) = true) as ->; [|reflexivity].
  apply Nat.ltb_lt. rewrite length_app. cbn. lia.
Qed.

Lemma feed_cons_snd self g raws :
  snd (feed self (g :: raws))
  = snd (_get_stable_gesture self g) :: snd (feed (fst (_get_stable_gesture self g)) raws).
Proof.
  cbn [feed]. destruct (_get_stable_gesture self g) as [s o]. cbn [fst snd].
  destruct (feed s raws). reflexivity.
Qed.

(** A label that fills the buffer by enough to spare stays stable. *)
Lemma feed_majority g noise : forall self,
  str_truthy g = true ->
  List.length (gesture_history self) = 10 ->
  6 + List.length noise <= occurrences (Some g) (gesture_history self) ->
  Forall (fun o => o = Some g) (snd (feed self noise)).
Proof.
  induction noise as [|n noise IH]; intros self Hg Hlen Hocc; [constructor|].
  rewrite feed_cons_snd.
  pose proof (_get_stable_gesture_history self n) as Hh.
  rewrite (deque_append_full _ _ Hlen) in Hh.
  assert (Hlen' : List.length (gesture_history (fst (_get_stable_gesture self n))) = 10).
  { rewrite Hh. destruct (gesture_history self) as [|a d]; [discriminate|].
    cbn in *. rewrite length_app. cbn. lia. }
  assert (Hocc' : 6 + List.length noise
                  <= occurrences (Some g) (gesture_history (fst (_get_stable_gesture self n)))).
  { rewrite Hh.
    pose proof (occurrences_tl (Some g) (gesture_history self ++ [n])) as Ht.
    rewrite occurrences_app in Ht. cbn [List.length] in Hocc. lia. }
  constructor.
  - rewrite _get_stable_gesture_result. apply stable_of_Some; [lia|].
    repeat split; [lia | exact Hg | lia].
  - apply IH; assumption.
Qed.

End Debounce.

(** X9. From an empty buffer five frames of the same recognised gesture
    produce none four times and then the gesture; if a callback is installed,
    the gesture is not the last-dispatched one and the cooldown has passed at
    the fifth frame, the callback is invoked there with the configured action. *)
Theorem X9_five_frames_dispatch (self : GestureController) (landmarks : Landmarks)
    (g : string) (t1 t2 t3 t4 t5 : float) :
  well_formed landmarks ->
  detect_gesture landmarks = Some g ->
  gesture_history self = [] ->
  let r := run self (map hand_frame (seen_at landmarks [t1; t2; t3; t4; t5])) in
  snd r = [None; None; None; None; Some g]
  /\ (on_gesture_callback self = true ->
      last_triggered_gesture self <> Some g ->
      within_cooldown self t5 = false ->
      exists action,
        dict_get GESTURE_ACTIONS g = Some action
        /\ calls (fst r) = calls self ++ [(g, action)]
        /\ last_triggered_gesture (fst r) = Some g
        /\ last_gesture_time (fst r) = t5).
Proof.
  intros _ Hd Hempty. cbv zeta.
  destruct (vocabulary_mapped g (detect_gesture_in_vocabulary _ _ Hd)) as (action & Ha & Hg).
  change (map hand_frame (seen_at landmarks [t1; t2; t3; t4; t5]))
    with (map hand_frame (seen_at landmarks [t1; t2; t3; t4]) ++ [hand_frame (landmarks, t5)]).
  rewrite run_app_fst, run_app_snd.
  rewrite cold_run by (rewrite Hempty; cbn; lia).
  cbn [fst snd]. rewrite Hempty. cbn [map app seen_at fst repeat List.length]. rewrite Hd.
  set (s4 := set_history self [Some g; Some g; Some g; Some g]).
  change (run s4 [hand_frame (landmarks, t5)])
    with (let (s, o) := process_frame s4 (hand_frame (landmarks, t5)) in (s, [o])).
  rewrite process_hand_frame. cbv zeta. cbn [fst snd]. rewrite Hd.
  assert (Hstable : snd (_get_stable_gesture s4 (Some g)) = Some g).
  { rewrite _get_stable_gesture_result. apply stable_of_Some; [cbn; lia|].
    cbn [_get_stable_gesture fst gesture_history set_history s4 deque_append app
           List.length HISTORY_MAXLEN Nat.ltb Nat.leb occurrences label_eqb].
    rewrite String.eqb_refl. repeat split; [cbn; lia | exact Hg | cbn; lia]. }
  rewrite Hstable. cbn [fst snd app]. split; [reflexivity|].
  intros Hcb Hneq Hcool.
  exists action. split; [exact Ha|].
  rewrite _trigger_gesture_dispatch; [| exact Hcool | exact Hneq].
  rewrite Ha. cbv zeta. cbn [on_gesture_callback _get_stable_gesture fst set_history s4].
  rewrite Hcb. cbn. auto.
Qed.

Lemma X9_witness :
  let r := run (init true)
             (map hand_frame (seen_at peace_hand [10; 11; 12; 13; 14]%float)) in
  snd r = [None; None; None; None; Some "peace"]
  /\ calls (fst r) = [("peace", "previous_page")].
Proof.
  destruct (X9_five_frames_dispatch (init true) peace_hand "peace" 10 11 12 13 14)
    as (H1 & H2); [reflexivity | reflexivity | reflexivity |].
  split; [exact H1|].
  destruct H2 as (action & Ha & Hc & _); [reflexivity | discriminate | reflexivity |].
  injection Ha as <-. exact Hc.
Defined.

(** X10. Once a gesture fills the ten-frame buffer, up to four frames of any
    other raw label (or of none) do not shake it: the stabiliser keeps
    answering the gesture. *)
Theorem X10_stable_label_survives_noise (self : GestureController) (g : string)
    (noise : list (option string)) :
  str_truthy g = true ->
  gesture_history self = repeat (Some g) 10 ->
  List.length noise <= 4 ->
  Forall (fun o => o = Some g) (snd (feed self noise)).
Proof.
  intros Hg Hh Hn. apply feed_majority; [exact Hg | |].
  - rewrite Hh. apply repeat_length.
  - rewrite Hh, occurrences_repeat. lia.
Qed.

Lemma X10_witness :
  Forall (fun o => o = Some "fist")
    (snd (feed (with_history (repeat (Some "fist") 10))
            [None; Some "peace"; None; Some "open_palm"])).
Proof.
  apply X10_stable_label_survives_noise; [reflexivity | reflexivity | cbn; lia].
Defined.

Example fifth_noisy_frame_unsettles :
  snd (feed (with_history (repeat (Some "fist") 10))
         [None; Some "peace"; None; Some "open_palm"; None])
  = [Some "fist"; Some "fist"; Some "fist"; Some "fist"; None].
Proof. vm_compute. reflexivity. Qed.

(** * Properties of the speech engine *)

(** X11. [set_rate] stores the requested rate clamped to the configured
    bounds: a rate within 80..250 is stored as it is, a lower one becomes 80,
    a higher one 250, and setting the stored rate again changes nothing. *)
Theorem X11_set_rate_clamps (self : TTSEngine) (rate : Z) :
  let self' := set_rate self rate in
  rate_in_range (get_rate self')
  /\ (rate_in_range rate -> get_rate self' = rate)
  /\ ((rate < TTS_MIN_RATE)%Z -> get_rate self' = TTS_MIN_RATE)
  /\ ((TTS_MAX_RATE < rate)%Z -> get_rate self' = TTS_MAX_RATE)
  /\ set_rate self' (get_rate self') = self'.
Proof.
  cbv zeta. unfold rate_in_range, get_rate, set_rate, TTS_MIN_RATE, TTS_MAX_RATE.
  cbn [current_rate is_speaking is_paused should_stop current_voice].
  repeat split; intros; try lia.
  f_equal. lia.
Qed.

Section Voices.

Lemma enumerate_from_In {A} (l : list A) : forall i j a,
  In (j, a) (enumerate_from i l) ->
  (i <= j < i + Z.of_nat (List.length l))%Z /\ nth_error l (Z.to_nat (j - i)) = Some a.
Proof.
  induction l as [|b l IH]; intros i j a Hin; [destruct Hin|].
  cbn [enumerate_from] in Hin. destruct Hin as [[= -> ->] | Hin].
  - cbn [List.length]. split; [lia|]. rewrite Z.sub_diag. reflexivity.
  - apply IH in Hin. destruct Hin as (Hr & Hn). cbn [List.length]. split; [lia|].
    replace (Z.to_nat (j - i)) with (S (Z.to_nat (j - (i + 1)))) by lia. exact Hn.
Qed.

End Voices.

(** X12. The index [get_available_voices] shows beside a name selects, through
    [set_voice], the voice of that name; an index below 0 or past the list
    leaves the engine as it is; either way the current voice remains one of
    the available ones. *)
Theorem X12_set_voice_by_index (self : TTSEngine) (voice_index : Z) :
  In (current_voice self) (map fst available_voices) ->
  In (current_voice (set_voice self voice_index)) (map fst available_voices)
  /\ ((voice_index < 0)%Z \/ (Z.of_nat (List.length available_voices) <= voice_index)%Z ->
      set_voice self voice_index = self)
  /\ (forall name,
        In (voice_index, name) (get_available_voices self) ->
        In (current_voice (set_voice self voice_index), name) available_voices).
Proof.
  intros Hcur. unfold set_voice, list_item.
  destruct (0 <=? voice_index)%Z eqn:E0; cbn [andb];
    [destruct (voice_index <? Z.of_nat (List.length available_voices))%Z eqn:E1|].
  - apply Z.leb_le in E0. apply Z.ltb_lt in E1.
    destruct (nth_error available_voices (Z.to_nat voice_index)) as [v|] eqn:En.
    + cbn [current_voice]. split; [|split].
      * apply in_map. apply nth_error_In in En. exact En.
      * intros [H | H]; lia.
      * intros name Hin. unfold get_available_voices in Hin.
        apply in_map_iff in Hin. destruct Hin as ([j [id nm]] & [= <- <-] & Hin).
        cbn [fst snd] in *. apply enumerate_from_In in Hin. destruct Hin as (_ & Hn).
        rewrite Z.sub_0_r, En in Hn. injection Hn as ->. cbn [fst].
        apply nth_error_In in En. exact En.
    + exfalso. apply nth_error_None in En. lia.
  - apply Z.ltb_ge in E1. split; [exact Hcur|]. split; [reflexivity|].
    intros name Hin. unfold get_available_voices in Hin.
    apply in_map_iff in Hin. destruct Hin as ([j [id nm]] & [= <- <-] & Hin).
    apply enumerate_from_In in Hin. lia.
  - apply Z.leb_gt in E0. split; [exact Hcur|]. split; [reflexivity|].
    intros name Hin. unfold get_available_voices in Hin.
    apply in_map_iff in Hin. destruct Hin as ([j [id nm]] & [= <- <-] & Hin).
    apply enumerate_from_In in Hin. lia.
Qed.

Lemma X12_witness :
  In (current_voice (set_voice tts_init 4)) (map fst available_voices)
  /\ set_voice tts_init (-1) = tts_init
  /\ In (current_voice (set_voice tts_init 4), "Ryan (UK Male)") available_voices.
Proof.
  split; [|split].
  - apply (X12_set_voice_by_index tts_init 4). cbn. tauto.
  - apply (X12_set_voice_by_index tts_init (-1)); [cbn; tauto | left; lia].
  - apply (X12_set_voice_by_index tts_init 4); [cbn; tauto|].
    cbn. tauto.
Defined.

(** X13. While the engine is speaking, [toggle_pause] succeeds and switches
    between playing and paused, and two toggles restore the engine; once
    stopped, [pause], [resume] and [toggle_pause] fail and change nothing. *)
Theorem X13_pause_toggle (self : TTSEngine) :
  (is_speaking self = true ->
   snd (toggle_pause self) = true
   /\ get_state (fst (toggle_pause self))
      = (if (get_state self =? "playing")%string then "paused" else "playing")
   /\ fst (toggle_pause (fst (toggle_pause self))) = self)
  /\ (get_state (stop self) = "stopped"
      /\ pause (stop self) = (stop self, false)
      /\ resume (stop self) = (stop self, false)
      /\ toggle_pause (stop self) = (stop self, false)).
Proof.
  split.
  - intros Hs. destruct self as [sp pa st r v]. cbn in Hs. subst sp.
    destruct pa; cbn; auto.
  - repeat split.
Qed.

Section RatePercent.

Lemma RATES_complete rate : rate_in_range rate -> In rate RATES.
Proof.
  unfold rate_in_range, TTS_MIN_RATE, TTS_MAX_RATE. intros H.
  apply in_map_iff. exists (Z.to_nat (rate - 80)). split; [lia|].
  apply in_seq. lia.
Qed.

Lemma _rate_to_percent_table :
  forallb
    (fun rate =>
       (_rate_to_percent (mkTTS false false false rate EmptyString)
        =? (if (150 <=? rate)%Z then "+" else EmptyString)
           ++ decimal (if (rate =? 237)%Z then exact_percent rate - 1
                       else exact_percent rate)%Z
           ++ "%")%string
       && (-46 <=? exact_percent rate)%Z && (exact_percent rate <=? 66)%Z)
    RATES
  = true.
Proof. vm_compute. reflexivity. Qed.

End RatePercent.

(** X14. For every rate within the bounds of [set_rate], [_rate_to_percent]
    prints the percentage (rate - 150) * 100 / 150 truncated toward zero,
    between -46 and 66, with one exception: at 237 the binary64 product falls
    just short of 58 and 57 is printed.  A plus sign is put in front from 150
    upwards; at 149 the truncation is 0 and no sign is printed. *)
Theorem X14_rate_to_percent (self : TTSEngine) :
  rate_in_range (current_rate self) ->
  let rate := current_rate self in
  let shown := (if (rate =? 237)%Z then exact_percent rate - 1 else exact_percent rate)%Z in
  _rate_to_percent self
  = ((if (150 <=? rate)%Z then "+" else EmptyString) ++ decimal shown ++ "%")%string
  /\ (-46 <= exact_percent rate <= 66)%Z.
Proof.
  intros H. cbv zeta. apply RATES_complete in H.
  pose proof _rate_to_percent_table as Ht. rewrite forallb_forall in Ht.
  specialize (Ht _ H). apply andb_prop in Ht. destruct Ht as [Ht H66].
  apply andb_prop in Ht. destruct Ht as [Ht H46].
  apply String.eqb_eq in Ht. apply Z.leb_le in H46, H66.
  split; [exact Ht | lia].
Qed.

Lemma X14_witness :
  _rate_to_percent (tts_with_rate 80) = "-46%"
  /\ _rate_to_percent (tts_with_rate 149) = "0%"
  /\ _rate_to_percent (tts_with_rate 150) = "+0%"
  /\ _rate_to_percent (tts_with_rate 237) = "+57%"
  /\ _rate_to_percent (tts_with_rate 1000) = "+66%".
Proof.
  assert (Hr : forall rate, rate_in_range (current_rate (tts_with_rate rate))).
  { intros rate. unfold rate_in_range, tts_with_rate, set_rate, TTS_MIN_RATE, TTS_MAX_RATE.
    cbn [current_rate]. lia. }
  split; [exact (proj1 (X14_rate_to_percent (tts_with_rate 80) (Hr _)))|].
  split; [exact (proj1 (X14_rate_to_percent (tts_with_rate 149) (Hr _)))|].
  split; [exact (proj1 (X14_rate_to_percent (tts_with_rate 150) (Hr _)))|].
  split; [exact (proj1 (X14_rate_to_percent (tts_with_rate 237) (Hr _)))|].
  exact (proj1 (X14_rate_to_percent (tts_with_rate 1000) (Hr _))).
Defined.

(** * Properties of the reader window *)

Section ReaderState.

Lemma even_range_step (n : Z) :
  (MIN_FONT_SIZE <= n <= MAX_FONT_SIZE)%Z -> Z.even n = true ->
  ((n < MAX_FONT_SIZE)%Z -> (n + FONT_SIZE_STEP <= MAX_FONT_SIZE)%Z)
  /\ ((MIN_FONT_SIZE < n)%Z -> (MIN_FONT_SIZE <= n - FONT_SIZE_STEP)%Z).
Proof.
  unfold MIN_FONT_SIZE, MAX_FONT_SIZE, FONT_SIZE_STEP. intros Hr He.
  apply Z.even_spec in He. destruct He as [k ->]. lia.
Qed.

Lemma increase_font_in_range self : font_in_range self -> font_in_range (increase_font self).
Proof.
  unfold font_in_range, increase_font. intros (Hr & He).
  destruct (current_font_size self <? MAX_FONT_SIZE)%Z eqn:E; [|auto].
  apply Z.ltb_lt in E. destruct (even_range_step _ Hr He) as (Hup & _).
  cbn [set_font_size current_font_size]. split.
  - specialize (Hup E). unfold FONT_SIZE_STEP in *. lia.
  - unfold FONT_SIZE_STEP. rewrite Z.even_add, He. reflexivity.
Qed.

Lemma decrease_font_in_range self : font_in_range self -> font_in_range (decrease_font self).
Proof.
  unfold font_in_range, decrease_font. intros (Hr & He).
  destruct (MIN_FONT_SIZE <? current_font_size self)%Z eqn:E; [|auto].
  apply Z.ltb_lt in E. destruct (even_range_step _ Hr He) as (_ & Hdown).
  cbn [set_font_size current_font_size]. split.
  - specialize (Hdown E). unfold FONT_SIZE_STEP in *. lia.
  - unfold FONT_SIZE_STEP. rewrite Z.even_sub, He. reflexivity.
Qed.

Lemma list_item_in_range {A} (l : list A) (i : Z) :
  (0 <= i < Z.of_nat (List.length l))%Z -> exists a, list_item l i = Some a.
Proof.
  intros H. unfold list_item.
  assert ((0 <=? i)%Z = true) as -> by (apply Z.leb_le; lia).
  destruct (nth_error l (Z.to_nat i)) as [a|] eqn:E; [exists a; reflexivity|].
  apply nth_error_None in E. lia.
Qed.

Lemma _display_current_page_in_range self :
  page_in_range self -> _display_current_page self = Some self.
Proof.
  intros H. unfold _display_current_page.
  destruct (nonempty (pages self)); [|reflexivity].
  destruct (list_item_in_range _ _ H) as (a & ->). reflexivity.
Qed.

Lemma next_page_in_range self :
  page_in_range self ->
  exists self',
    next_page self = Some self'
    /\ page_in_range self'
    /\ pages self' = pages self
    /\ current_font_size self' = current_font_size self
    /\ current_line_spacing self' = current_line_spacing self
    /\ gestures_enabled self' = gestures_enabled self
    /\ current_page self' =
         (if (current_page self <? Z.of_nat (List.length (pages self)) - 1)%Z
          then current_page self + 1 else current_page self)%Z.
Proof.
  intros H. unfold next_page.
  destruct (current_page self <? Z.of_nat (List.length (pages self)) - 1)%Z eqn:E.
  - apply Z.ltb_lt in E. cbv zeta.
    rewrite _display_current_page_in_range.
    + eexists. split; [reflexivity|]. unfold page_in_range in *. cbn. repeat split; lia.
    + unfold page_in_range in *. cbn. lia.
  - exists self. repeat split; try reflexivity; apply H.
Qed.

Lemma previous_page_in_range self :
  page_in_range self ->
  exists self',
    previous_page self = Some self'
    /\ page_in_range self'
    /\ pages self' = pages self
    /\ current_font_size self' = current_font_size self
    /\ current_line_spacing self' = current_line_spacing self
    /\ gestures_enabled self' = gestures_enabled self
    /\ current_page self' =
         (if (0 <? current_page self)%Z then current_page self - 1 else current_page self)%Z.
Proof.
  intros H. unfold previous_page.
  destruct (0 <? current_page self)%Z eqn:E.
  - apply Z.ltb_lt in E. cbv zeta.
    rewrite _display_current_page_in_range.
    + eexists. split; [reflexivity|]. unfold page_in_range in *. cbn. repeat split; lia.
    + unfold page_in_range in *. cbn. lia.
  - exists self. repeat split; try reflexivity; apply H.
Qed.

End ReaderState.

(** X15. The font size stays an even number between 12 and 48 under
    [increase_font] and [decrease_font]; away from the bounds each undoes the
    other, and at a bound the step towards it does nothing. *)
Theorem X15_font_size_in_range (self : AdaptiveReaderGUI) :
  font_in_range self ->
  font_in_range (increase_font self)
  /\ font_in_range (decrease_font self)
  /\ ((current_font_size self < MAX_FONT_SIZE)%Z -> decrease_font (increase_font self) = self)
  /\ ((MIN_FONT_SIZE < current_font_size self)%Z -> increase_font (decrease_font self) = self)
  /\ (current_font_size self = MAX_FONT_SIZE -> increase_font self = self)
  /\ (current_font_size self = MIN_FONT_SIZE -> decrease_font self = self).
Proof.
  intros H.
  split; [apply increase_font_in_range, H|].
  split; [apply decrease_font_in_range, H|].
  destruct H as (Hr & He). destruct (even_range_step _ Hr He) as (Hup & Hdown).
  destruct self as [fs sp ft cp pg cpp ge t].
  unfold increase_font, decrease_font, MIN_FONT_SIZE, MAX_FONT_SIZE, FONT_SIZE_STEP in *.
  cbn [current_font_size set_font_size current_line_spacing full_text current_page pages
         chars_per_page gestures_enabled tts] in *.
  repeat split.
  - intros Hlt. assert ((fs <? 48)%Z = true) as -> by (apply Z.ltb_lt; lia).
    unfold set_font_size.
    cbn [current_font_size current_line_spacing full_text current_page pages
           chars_per_page gestures_enabled tts].
    assert ((12 <? fs + 2)%Z = true) as -> by (apply Z.ltb_lt; lia).
    cbn [current_font_size current_line_spacing full_text current_page pages
           chars_per_page gestures_enabled tts].
    f_equal. lia.
  - intros Hgt. assert ((12 <? fs)%Z = true) as -> by (apply Z.ltb_lt; lia).
    unfold set_font_size.
    cbn [current_font_size current_line_spacing full_text current_page pages
           chars_per_page gestures_enabled tts].
    assert ((fs - 2 <? 48)%Z = true) as -> by (apply Z.ltb_lt; lia).
    cbn [current_font_size current_line_spacing full_text current_page pages
           chars_per_page gestures_enabled tts].
    f_equal. lia.
  - intros ->. reflexivity.
  - intros ->. reflexivity.
Qed.

Lemma X15_witness :
  font_in_range (increase_font (reader_with ascii_isspace (literal "Hello")))
  /\ decrease_font (increase_font (reader_with ascii_isspace (literal "Hello")))
     = reader_with ascii_isspace (literal "Hello").
Proof.
  destruct (X15_font_size_in_range (reader_with ascii_isspace (literal "Hello")))
    as (H1 & _ & H3 & _).
  - unfold font_in_range.
    change (current_font_size (reader_with ascii_isspace (literal "Hello"))) with 18%Z.
    split; [unfold MIN_FONT_SIZE, MAX_FONT_SIZE; lia | reflexivity].
  - split; [exact H1 | apply H3; reflexivity].
Defined.

(** X16. The line spacing stays on the grid 1.0, 1.25, ..., 3.0 (the sums in
    binary64 are exact), hence between the configured bounds; below the upper
    bound [decrease_spacing] undoes [increase_spacing]. *)
Theorem X16_line_spacing_in_range (self : AdaptiveReaderGUI) :
  In (current_line_spacing self) SPACING_GRID ->
  In (current_line_spacing (increase_spacing self)) SPACING_GRID
  /\ In (current_line_spacing (decrease_spacing self)) SPACING_GRID
  /\ (MIN_LINE_SPACING <=? current_line_spacing self)%float = true
  /\ (current_line_spacing self <=? MAX_LINE_SPACING)%float = true
  /\ (current_line_spacing self <> MAX_LINE_SPACING ->
      decrease_spacing (increase_spacing self) = self).
Proof.
  destruct self as [fs sp ft cp pg cpp ge t]. cbn [current_line_spacing].
  unfold SPACING_GRID. cbn [In].
  intros [<- | [<- | [<- | [<- | [<- | [<- | [<- | [<- | [<- | []]]]]]]]]];
    (split; [vm_compute; tauto|]); (split; [vm_compute; tauto|]);
    (split; [reflexivity|]); (split; [reflexivity|]);
    intros Hne; try reflexivity; exfalso; apply Hne; reflexivity.
Qed.

Lemma X16_witness :
  In (current_line_spacing (increase_spacing (reader_with ascii_isspace (literal "Hello"))))
    SPACING_GRID
  /\ decrease_spacing (increase_spacing (reader_with ascii_isspace (literal "Hello")))
     = reader_with ascii_isspace (literal "Hello").
Proof.
  destruct (X16_line_spacing_in_range (reader_with ascii_isspace (literal "Hello")))
    as (H1 & _ & _ & _ & H5).
  - vm_compute. tauto.
  - split; [exact H1 | apply H5]. vm_compute. discriminate.
Defined.

(** X17. While the current page exists, [next_page] and [previous_page] never
    raise and leave it existing: they move by one page inside the document and
    do nothing at its ends, and going forward then back returns to the same
    page. *)
Theorem X17_page_navigation (self : AdaptiveReaderGUI) :
  page_in_range self ->
  exists forward back,
    next_page self = Some forward
    /\ previous_page self = Some back
    /\ page_in_range forward /\ page_in_range back
    /\ pages forward = pages self /\ pages back = pages self
    /\ ((current_page self < Z.of_nat (List.length (pages self)) - 1)%Z ->
        current_page forward = (current_page self + 1)%Z
        /\ exists again, previous_page forward = Some again
                         /\ current_page again = current_page self)
    /\ (current_page self = (Z.of_nat (List.length (pages self)) - 1)%Z -> forward = self)
    /\ (current_page self = 0%Z -> back = self).
Proof.
  intros H.
  destruct (next_page_in_range self H) as (f & Hf & Hfr & Hfp & _ & _ & _ & Hfc).
  destruct (previous_page_in_range self H) as (b & Hb & Hbr & Hbp & _ & _ & _ & Hbc).
  exists f, b.
  split; [exact Hf|]. split; [exact Hb|]. split; [exact Hfr|]. split; [exact Hbr|].
  split; [exact Hfp|]. split; [exact Hbp|].
  split; [|split].
  - intros Hlt. apply Z.ltb_lt in Hlt. rewrite Hlt in Hfc. split; [exact Hfc|].
    destruct (previous_page_in_range f Hfr) as (a & Ha & _ & _ & _ & _ & _ & Hac).
    exists a. split; [exact Ha|].
    rewrite Hac, Hfc.
    assert ((0 <? current_page self + 1)%Z = true) as ->
      by (apply Z.ltb_lt; unfold page_in_range in H; lia).
    lia.
  - intros Hlast. unfold next_page in Hf.
    assert ((current_page self <? Z.of_nat (List.length (pages self)) - 1)%Z = false) as E
      by (apply Z.ltb_ge; lia).
    rewrite E in Hf. congruence.
  - intros Hfirst. unfold previous_page in Hb. rewrite Hfirst in Hb.
    cbn in Hb. congruence.
Qed.

Lemma X17_witness :
  exists forward,
    next_page (set_current_page
                 (set_pages (reader_with ascii_isspace (literal "Hello"))
                    [literal "one"; literal "two"; literal "three"]) 1)
    = Some forward
    /\ current_page forward = 2%Z.
Proof.
  destruct (X17_page_navigation
              (set_current_page
                 (set_pages (reader_with ascii_isspace (literal "Hello"))
                    [literal "one"; literal "two"; literal "three"]) 1))
    as (f & b & Hf & _ & _ & _ & _ & _ & Hstep & _).
  - unfold page_in_range. cbn. lia.
  - exists f. split; [exact Hf|]. apply Hstep. cbn. lia.
Defined.

Section GestureActions.

Variable isspace : N -> bool.

Lemma tts_play_in_range self :
  page_in_range self -> exists t, tts_play isspace self = Some (set_tts self t).
Proof.
  intros H. unfold tts_play.
  destruct (list_item_in_range _ _ H) as (a & ->).
  destruct (nonempty (pages self)); [eexists; reflexivity|].
  exists (tts self). destruct self; reflexivity.
Qed.

Lemma tts_toggle_in_range self :
  page_in_range self -> exists t, tts_toggle isspace self = Some (set_tts self t).
Proof.
  intros H. unfold tts_toggle, tts_pause.
  destruct (tts_play_in_range self H) as (t & Ht).
  repeat match goal with
         | |- context [if ?b then _ else _] => destruct b
         end; try (eexists; reflexivity); try (exists t; exact Ht).
  exists (tts self). destruct self; reflexivity.
Qed.

Lemma method_keeps self action method :
  font_in_range self -> page_in_range self ->
  dict_get (actions isspace) action = Some method ->
  exists self', method self = Some self' /\ reader_kept self self'.
Proof.
  intros Hf Hp. unfold actions. cbn [dict_get].
  repeat match goal with
         | |- context [if ?b then _ else _] => destruct b
         end; intros [= <-].
  - eexists. split; [reflexivity|]. unfold reader_kept.
    split; [apply increase_font_in_range, Hf|].
    unfold increase_font. destruct (_ <? _)%Z; repeat split; try reflexivity; apply Hp.
  - eexists. split; [reflexivity|]. unfold reader_kept.
    split; [apply decrease_font_in_range, Hf|].
    unfold decrease_font. destruct (_ <? _)%Z; repeat split; try reflexivity; apply Hp.
  - destruct (next_page_in_range self Hp) as (s & Hs & Hr & Hpg & Hfs & Hsp & Hge & _).
    exists s. split; [exact Hs|]. unfold reader_kept, font_in_range in *.
    rewrite Hfs. repeat split; try assumption; try apply Hf; apply Hr.
  - destruct (previous_page_in_range self Hp) as (s & Hs & Hr & Hpg & Hfs & Hsp & Hge & _).
    exists s. split; [exact Hs|]. unfold reader_kept, font_in_range in *.
    rewrite Hfs. repeat split; try assumption; try apply Hf; apply Hr.
  - destruct (tts_toggle_in_range self Hp) as (t & Ht).
    exists (set_tts self t). split; [exact Ht|].
    unfold reader_kept. repeat split; try reflexivity; try apply Hf; apply Hp.
  - eexists. split; [reflexivity|].
    unfold reader_kept. repeat split; try reflexivity; try apply Hf; apply Hp.
Qed.

Lemma _execute_gesture_action_keeps self gesture action :
  font_in_range self -> page_in_range self ->
  exists self',
    _execute_gesture_action isspace self gesture action = Some self'
    /\ reader_kept self self'
    /\ (gestures_enabled self = false -> self' = self).
Proof.
  intros Hf Hp. unfold _execute_gesture_action.
  destruct (gestures_enabled self) eqn:Hg; cbn [negb].
  - destruct (dict_get (actions isspace) action) as [method|] eqn:E.
    + destruct (method_keeps self action method Hf Hp E) as (s & Hs & Hk).
      exists s. split; [exact Hs|]. split; [exact Hk | discriminate].
    + exists self. split; [reflexivity|]. split; [|reflexivity].
      unfold reader_kept. auto.
  - exists self. split; [reflexivity|]. split; [|reflexivity].
    unfold reader_kept. auto.
Qed.

End GestureActions.

(** X18. On a reader whose font size is in range and whose current page
    exists, executing any sequence of (gesture, action) pairs never raises and
    keeps both; it changes neither the pages nor the line spacing, and with
    gesture control switched off it changes nothing at all. *)
Theorem X18_gesture_actions_safe (isspace : N -> bool) (self : AdaptiveReaderGUI)
    (cs : list (string * string)) :
  font_in_range self ->
  page_in_range self ->
  exists self',
    execute_all isspace self cs = Some self'
    /\ font_in_range self' /\ page_in_range self'
    /\ pages self' = pages self
    /\ current_line_spacing self' = current_line_spacing self
    /\ (gestures_enabled self = false -> self' = self).
Proof.
  revert self. induction cs as [|[gesture action] cs IH]; intros self Hf Hp.
  - exists self. cbn. auto 10.
  - destruct (_execute_gesture_action_keeps isspace self gesture action Hf Hp)
      as (s & Hs & (Hf' & Hp' & Hpg & Hsp & Hge) & Hoff).
    destruct (IH s Hf' Hp') as (s' & Hs' & Hf'' & Hp'' & Hpg' & Hsp' & Hoff').
    exists s'. cbn [execute_all]. rewrite Hs.
    split; [exact Hs'|]. split; [exact Hf''|]. split; [exact Hp''|].
    split; [congruence|]. split; [congruence|].
    intros Hdis. rewrite <- (Hoff Hdis). apply Hoff'. congruence.
Qed.

Lemma X18_witness :
  exists self',
    execute_all ascii_isspace three_page_reader
      (calls (fst (run (init true)
         (map hand_frame
            (seen_at thumbs_up_hand [10; 11; 12; 13; 14; 15; 16]%float
             ++ seen_at peace_hand [17; 18; 19; 20; 21; 22; 23; 24; 25; 26]%float)))))
    = Some self'
    /\ font_in_range self' /\ page_in_range self'.
Proof.
  destruct (X18_gesture_actions_safe ascii_isspace three_page_reader
      (calls (fst (run (init true)
         (map hand_frame
            (seen_at thumbs_up_hand [10; 11; 12; 13; 14; 15; 16]%float
             ++ seen_at peace_hand [17; 18; 19; 20; 21; 22; 23; 24; 25; 26]%float))))))
    as (s & Hs & Hf & Hp & _).
  - unfold font_in_range.
    change (current_font_size three_page_reader) with 18%Z.
    split; [unfold MIN_FONT_SIZE, MAX_FONT_SIZE; lia | reflexivity].
  - unfold page_in_range. cbn. lia.
  - exists s. auto.
Defined.

Example thumbs_up_then_peace_on_the_reader :
  option_map (fun r => (current_font_size r, current_page r))
    (execute_all ascii_isspace three_page_reader
       (calls (fst (run (init true)
          (map hand_frame
             (seen_at thumbs_up_hand [10; 11; 12; 13; 14; 15; 16]%float
              ++ seen_at peace_hand [17; 18; 19; 20; 21; 22; 23; 24; 25; 26]%float))))))
  = Some (20%Z, 0%Z).
Proof. vm_compute. reflexivity. Qed.

(** X19. Every gesture the classifier can answer, and every entry of
    [GESTURE_ACTIONS], names an action that [_execute_gesture_action] has a
    method for: no dispatched gesture is dropped by the window. *)
Theorem X19_every_action_has_a_method (isspace : N -> bool) :
  (forall landmarks g,
      well_formed landmarks ->
      detect_gesture landmarks = Some g ->
      exists action method,
        dict_get GESTURE_ACTIONS g = Some action
        /\ dict_get (actions isspace) action = Some method)
  /\ (forall g action,
         In (g, action) GESTURE_ACTIONS ->
         exists method, dict_get (actions isspace) action = Some method).
Proof.
  split.
  - intros landmarks g _ Hd. apply detect_gesture_in_vocabulary in Hd.
    unfold VOCABULARY in Hd. cbn [In] in Hd.
    destruct Hd as [<- | [<- | [<- | [<- | [<- | [<- | []]]]]]];
      eexists; eexists; split; reflexivity.
  - intros g action Hin. unfold GESTURE_ACTIONS in Hin. cbn [In] in Hin.
    repeat match goal with
           | H : _ \/ _ |- _ => destruct H as [H | H]
           end; try (injection Hin as <- <-; eexists; reflexivity).
    destruct Hin.
Qed.

Section Pagination.

Variable isspace : N -> bool.

Lemma _paginate_text_blank self :
  strip isspace (full_text self) = [] ->
  _paginate_text isspace self = set_pages self [literal "No content to display."].
Proof.
  intros H. unfold _paginate_text. cbv zeta.
  cbn [full_text set_pages]. rewrite H. reflexivity.
Qed.

Lemma _paginate_text_pages self :
  strip isspace (full_text self) <> [] ->
  pages (_paginate_text isspace self) <> []
  /\ current_page (_paginate_text isspace self) = 0%Z.
Proof.
  intros H. unfold _paginate_text. cbv zeta. cbn [full_text set_pages].
  destruct (strip isspace (full_text self)) as [|c text] eqn:E; [congruence|].
  cbn [nonempty negb].
  destruct (fold_left _ _ _) as [pgs cur].
  destruct (nonempty (strip isspace cur)).
  - cbn [set_current_page set_pages pages current_page].
    destruct (pgs ++ [strip isspace cur]) eqn:E'; [destruct pgs; discriminate|].
    cbn. split; [discriminate | reflexivity].
  - destruct pgs; cbn; split; try discriminate; reflexivity.
Qed.

End Pagination.

(** X20. After [_paginate_text] there is always at least one page.  A text
    that is blank once stripped gives the single page "No content to
    display." and leaves the page index where it was; any other text gives a
    non-empty list of pages with the index reset to 0, so that the current
    page exists. *)
Theorem X20_paginate_never_empty (isspace : N -> bool) (self : AdaptiveReaderGUI) :
  let self' := _paginate_text isspace self in
  pages self' <> []
  /\ (strip isspace (full_text self) = [] ->
      pages self' = [literal "No content to display."]
      /\ current_page self' = current_page self)
  /\ (strip isspace (full_text self) <> [] ->
      current_page self' = 0%Z /\ page_in_range self')
  /\ current_font_size self' = current_font_size self
  /\ full_text self' = full_text self.
Proof.
  cbv zeta.
  assert (Hblank : strip isspace (full_text self) = [] ->
                   pages (_paginate_text isspace self) = [literal "No content to display."]
                   /\ current_page (_paginate_text isspace self) = current_page self).
  { intros H. rewrite (_paginate_text_blank isspace self H). split; reflexivity. }
  assert (Hfull : strip isspace (full_text self) <> [] ->
                  current_page (_paginate_text isspace self) = 0%Z
                  /\ page_in_range (_paginate_text isspace self)).
  { intros H. destruct (_paginate_text_pages isspace self H) as (Hne & H0).
    split; [exact H0|]. unfold page_in_range. rewrite H0.
    destruct (pages (_paginate_text isspace self)); [congruence | cbn; lia]. }
  split; [|split; [exact Hblank | split; [exact Hfull|]]].
  - destruct (strip isspace (full_text self)) as [|c t] eqn:E.
    + destruct (Hblank eq_refl) as (-> & _). discriminate.
    + apply (_paginate_text_pages isspace self). rewrite E. discriminate.
  - unfold _paginate_text. cbv zeta. cbn [full_text set_pages].
    destruct (nonempty (strip isspace (full_text self))); cbn [negb];
      [|split; reflexivity].
    destruct (fold_left _ _ _) as [pgs cur]. split; reflexivity.
Qed.

Section ShortText.

Variable isspace : N -> bool.
Hypothesis isspace_LF : isspace LF = true.

Lemma split_paragraphs_nonempty s : split_paragraphs s <> [].
Proof.
  destruct s as [|c [|d s]]; cbn; try discriminate.
  destruct ((c =? LF)%N && (d =? LF)%N); [discriminate|].
  destruct (match s with [] => _ | _ => _ end); discriminate.
Qed.

Lemma split_paragraphs_step c d s :
  split_paragraphs (c :: d :: s) =
    if (c =? LF)%N && (d =? LF)%N then [] :: split_paragraphs s
    else
      match split_paragraphs (d :: s) with
      | p :: ps => (c :: p) :: ps
      | [] => [[c]]
      end.
Proof. reflexivity. Qed.

(** Writing the separator back after each piece restores the text. *)
Lemma with_separators_split s :
  with_separators (split_paragraphs s) = s ++ PARAGRAPH_SEP.
Proof.
  assert (H : forall n s, List.length s <= n ->
                with_separators (split_paragraphs s) = s ++ PARAGRAPH_SEP).
  { clear s. induction n as [|n IH]; intros s Hn.
    - destruct s; [reflexivity | cbn in Hn; lia].
    - destruct s as [|c [|d s]]; [reflexivity | reflexivity |].
      rewrite split_paragraphs_step.
      destruct ((c =? LF)%N && (d =? LF)%N) eqn:E.
      + apply andb_prop in E. destruct E as [Ec Ed].
        apply N.eqb_eq in Ec, Ed. subst c d.
        unfold with_separators in *. cbn [map List.concat app].
        rewrite IH by (cbn in Hn; lia). reflexivity.
      + pose proof (IH (d :: s) ltac:(cbn in *; lia)) as Hrec.
        pose proof (split_paragraphs_nonempty (d :: s)) as Hne.
        destruct (split_paragraphs (d :: s)) as [|p ps]; [congruence|].
        unfold with_separators in *. cbn [map List.concat] in *.
        rewrite <- !app_assoc in *. cbn [app]. f_equal. exact Hrec. }
  apply (H (List.length s)). lia.
Qed.

(** Paragraphs that fit together under the limit all go to one page. *)
Lemma paginate_fold_fits limit paragraphs : forall pgs cur,
  (Z.of_nat (List.length cur + List.length (with_separators paragraphs)) - 2 < limit)%Z ->
  fold_left (paginate_step isspace limit) paragraphs (pgs, cur)
  = (pgs, cur ++ with_separators paragraphs).
Proof.
  induction paragraphs as [|para paragraphs IH]; intros pgs cur H.
  - cbn. rewrite app_nil_r. reflexivity.
  - unfold with_separators in *. cbn [map List.concat fold_left] in *.
    rewrite !length_app in H. cbn [List.length PARAGRAPH_SEP] in H.
    unfold paginate_step at 2.
    assert ((Z.of_nat (List.length cur) + Z.of_nat (List.length para) <? limit)%Z = true) as ->
      by (apply Z.ltb_lt; lia).
    rewrite IH.
    + rewrite <- !app_assoc. reflexivity.
    + rewrite !length_app. cbn [List.length PARAGRAPH_SEP]. lia.
Qed.

Lemma lstrip_head s c r : lstrip isspace s = c :: r -> isspace c = false.
Proof.
  induction s as [|a s IH]; cbn; [discriminate|].
  destruct (isspace a) eqn:E; [exact IH|]. intros [= <- _]. exact E.
Qed.

Lemma lstrip_fixed c r : isspace c = false -> lstrip isspace (c :: r) = c :: r.
Proof. intros H. cbn. rewrite H. reflexivity. Qed.

Lemma lstrip_idempotent s : lstrip isspace (lstrip isspace s) = lstrip isspace s.
Proof.
  destruct (lstrip isspace s) as [|c r] eqn:E; [reflexivity|].
  apply lstrip_fixed. exact (lstrip_head _ _ _ E).
Qed.

Lemma lstrip_split s :
  exists w, s = w ++ lstrip isspace s /\ forallb isspace w = true.
Proof.
  induction s as [|a s (w & Hs & Hw)]; [exists []; split; reflexivity|].
  cbn [lstrip]. destruct (isspace a) eqn:E.
  - exists (a :: w). cbn. rewrite E, Hw. split; [f_equal; exact Hs | reflexivity].
  - exists []. split; reflexivity.
Qed.

Lemma lstrip_spaces w s : forallb isspace w = true -> lstrip isspace (w ++ s) = lstrip isspace s.
Proof.
  induction w as [|a w IH]; [reflexivity|].
  cbn. intros H. apply andb_prop in H. destruct H as [-> H]. apply IH. exact H.
Qed.

Lemma rstrip_idempotent s : rstrip isspace (rstrip isspace s) = rstrip isspace s.
Proof. unfold rstrip. rewrite rev_involutive, lstrip_idempotent. reflexivity. Qed.

Lemma rstrip_spaces s w :
  forallb isspace w = true -> rstrip isspace (s ++ w) = rstrip isspace s.
Proof.
  intros H. unfold rstrip. rewrite rev_app_distr, lstrip_spaces; [reflexivity|].
  rewrite forallb_forall in *. intros x Hx. apply H. apply in_rev. exact Hx.
Qed.

(** A stripped text that is not empty begins with a character that is not
    whitespace. *)
Lemma strip_head s c r : strip isspace s = c :: r -> isspace c = false.
Proof.
  unfold strip, rstrip. intros H.
  destruct (lstrip_split (rev (lstrip isspace s))) as (w & Hs & _).
  apply (f_equal (@rev N)) in Hs. rewrite rev_involutive, rev_app_distr, H in Hs.
  cbn [app] in Hs. exact (lstrip_head _ _ _ Hs).
Qed.

Lemma strip_with_separator s :
  strip isspace s <> [] ->
  strip isspace (strip isspace s ++ PARAGRAPH_SEP) = strip isspace s.
Proof.
  intros Hne. destruct (strip isspace s) as [|c r] eqn:E; [congruence|].
  unfold strip at 1. cbn [app]. rewrite (lstrip_fixed _ _ (strip_head _ _ _ E)).
  change (c :: r ++ PARAGRAPH_SEP) with ((c :: r) ++ PARAGRAPH_SEP).
  rewrite rstrip_spaces by (cbn; rewrite isspace_LF; reflexivity).
  rewrite <- E. unfold strip. apply rstrip_idempotent.
Qed.

Lemma _paginate_text_short self :
  strip isspace (full_text self) <> [] ->
  (Z.of_nat (List.length (strip isspace (full_text self))) < chars_per_page self)%Z ->
  pages (_paginate_text isspace self) = [strip isspace (full_text self)].
Proof.
  intros Hne Hshort. unfold _paginate_text. cbv zeta.
  cbn [full_text set_pages chars_per_page].
  destruct (nonempty (strip isspace (full_text self))) eqn:En;
    [|destruct (strip isspace (full_text self)); [congruence | discriminate]].
  cbn [negb].
  rewrite paginate_fold_fits.
  - rewrite with_separators_split. cbn [app].
    rewrite (strip_with_separator _ Hne), En. reflexivity.
  - rewrite with_separators_split, length_app. cbn [List.length PARAGRAPH_SEP]. lia.
Qed.

End ShortText.

(** X21. A text whose stripped form is not empty and shorter than
    [chars_per_page] is laid out as exactly one page, the stripped text itself:
    splitting it into paragraphs and joining them again loses nothing.  (The
    line feed is assumed to be whitespace for [strip].) *)
Theorem X21_short_text_one_page (isspace : N -> bool) (self : AdaptiveReaderGUI) :
  isspace LF = true ->
  strip isspace (full_text self) <> [] ->
  (Z.of_nat (List.length (strip isspace (full_text self))) < chars_per_page self)%Z ->
  pages (_paginate_text isspace self) = [strip isspace (full_text self)]
  /\ current_page (_paginate_text isspace self) = 0%Z.
Proof.
  intros HLF Hne Hshort. split.
  - apply _paginate_text_short; assumption.
  - apply _paginate_text_pages. exact Hne.
Qed.

Lemma X21_witness :
  pages (reader_with ascii_isspace
           (literal "  Hello" ++ PARAGRAPH_SEP ++ literal "World " ++ [LF]))
  = [literal "Hello" ++ PARAGRAPH_SEP ++ literal "World"].
Proof.
  apply (X21_short_text_one_page ascii_isspace
           (mkReader DEFAULT_FONT_SIZE DEFAULT_LINE_SPACING
              (literal "  Hello" ++ PARAGRAPH_SEP ++ literal "World " ++ [LF])
              0 [] 2000 false tts_init)).
  - reflexivity.
  - vm_compute. discriminate.
  - vm_compute. reflexivity.
Defined.

Section Fifo.

Lemma lastn_app {A} (n : nat) (a b : list A) :
  lastn n (lastn n a ++ b) = lastn n (a ++ b).
Proof.
  unfold lastn.
  assert (Ha : skipn (List.length a - n) a ++ b = skipn (List.length a - n) (a ++ b)).
  { rewrite skipn_app.
    replace (List.length a - n - List.length a) with 0 by lia. reflexivity. }
  rewrite Ha, skipn_skipn. f_equal.
  rewrite length_skipn, !length_app. lia.
Qed.

Lemma deque_append_lastn {A} (d : list A) (v : A) :
  List.length d <= 10 -> deque_append HISTORY_MAXLEN d v = lastn 10 (d ++ [v]).
Proof.
  intros H. unfold deque_append, HISTORY_MAXLEN, lastn.
  rewrite length_app. cbn [List.length].
  destruct (10 <? List.length d + 1) eqn:E.
  - apply Nat.ltb_lt in E. replace (List.length d + 1 - 10) with 1 by lia.
    destruct (d ++ [v]); reflexivity.
  - apply Nat.ltb_ge in E. replace (List.length d + 1 - 10) with 0 by lia. reflexivity.
Qed.

Lemma feed_cons_fst self g raws :
  fst (feed self (g :: raws)) = fst (feed (fst (_get_stable_gesture self g)) raws).
Proof.
  cbn [feed]. destruct (_get_stable_gesture self g) as [s o]. cbn [fst].
  destruct (feed s raws). reflexivity.
Qed.

End Fifo.

(** X22. The history buffer is a first-in first-out window: after any number
    of calls of the stabiliser it holds the ten most recent raw labels, none
    included, in the order they came. *)
Theorem X22_history_is_last_ten (self : GestureController) (raws : list (option string)) :
  List.length (gesture_history self) <= 10 ->
  gesture_history (fst (feed self raws)) = lastn 10 (gesture_history self ++ raws).
Proof.
  revert self. induction raws as [|g raws IH]; intros self H.
  - cbn [feed fst]. rewrite app_nil_r. unfold lastn.
    replace (List.length (gesture_history self) - 10) with 0 by lia. reflexivity.
  - rewrite feed_cons_fst, IH by (apply _get_stable_gesture_bounded; exact H).
    rewrite _get_stable_gesture_history, (deque_append_lastn _ _ H), lastn_app.
    rewrite <- app_assoc. reflexivity.
Qed.

Lemma X22_witness :
  gesture_history
    (fst (feed (with_history peace_5_of_10) [Some "fist"; None; Some "fist"]))
  = [ Some "peace"; None; Some "peace"; None; Some "peace"; None; Some "peace";
      Some "fist"; None; Some "fist" ].
Proof.
  apply (X22_history_is_last_ten (with_history peace_5_of_10)
           [Some "fist"; None; Some "fist"]).
  cbn. lia.
Defined.
